(** * Day_Care: the payment allocation engine and its registration handlers

    Shallow embedding of the express handlers of the day-care canister.
    The repository holds two variants of the server: [src/index.ts]
    (module [IndexTs] below) and its refactored sibling (module
    [Refactored]).  Both are embedded, handler by handler.

    Modelling conventions.
    - A JavaScript number is [NaN], a finite value or an infinity.  Finite
      values are exact rationals: the rounding of IEEE doubles is not part
      of the model, nor is the overflow of a literal to an infinity or its
      underflow to zero.  The model and the doubles of the code agree on
      the whole numbers below 2^53 ([safe_integer]); a property that
      depends on the exact value of a difference is stated for those.
    - A string is a sequence of bytes.  White space is the white space of
      ASCII: the model and the code agree on the strings of ASCII
      characters ([ascii_only]).
    - A request body is a JSON object: a finite map from field names to
      JSON values.  Reading a field that is absent yields [JUndefined].
    - A [StableBTreeMap] is a finite map from the serialised key to the
      stored value.
    - [uuidv4()] and [ic.time()] are inputs of a request ([Env]). *)

From Stdlib Require Import ZArith QArith Lqa Bool String Ascii List Lia.
From stdpp Require Import gmap strings list fin_maps.

Local Open Scope string_scope.
Local Open Scope list_scope.

(** ** JavaScript numbers *)

Inductive JsNum : Type :=
| NaN
| Fin (q : Q)
| PInf
| NInf.

Definition Qminb (x y : Q) : Q := if Qle_bool x y then x else y.
Definition Qmaxb (x y : Q) : Q := if Qle_bool x y then y else x.

(** [a - b] *)
Definition js_sub (a b : JsNum) : JsNum :=
  match a, b with
  | NaN, _ | _, NaN => NaN
  | Fin x, Fin y => Fin (x - y)
  | Fin _, PInf => NInf
  | Fin _, NInf => PInf
  | PInf, PInf => NaN
  | PInf, _ => PInf
  | NInf, NInf => NaN
  | NInf, _ => NInf
  end.

(** unary minus *)
Definition js_neg (a : JsNum) : JsNum :=
  match a with
  | NaN => NaN
  | Fin x => Fin (- x)
  | PInf => NInf
  | NInf => PInf
  end.

(** [Math.min(a, b)] on numbers *)
Definition Math_min (a b : JsNum) : JsNum :=
  match a, b with
  | NaN, _ | _, NaN => NaN
  | NInf, _ | _, NInf => NInf
  | PInf, y => y
  | x, PInf => x
  | Fin x, Fin y => Fin (Qminb x y)
  end.

(** [Math.max(a, b)] on numbers *)
Definition Math_max (a b : JsNum) : JsNum :=
  match a, b with
  | NaN, _ | _, NaN => NaN
  | PInf, _ | _, PInf => PInf
  | NInf, y => y
  | x, NInf => x
  | Fin x, Fin y => Fin (Qmaxb x y)
  end.

(** [a <= b] *)
Definition js_le (a b : JsNum) : bool :=
  match a, b with
  | NaN, _ | _, NaN => false
  | NInf, _ => true
  | _, PInf => true
  | Fin x, Fin y => Qle_bool x y
  | _, _ => false
  end.

(** [a < b] *)
Definition js_lt (a b : JsNum) : bool :=
  match a, b with
  | NaN, _ | _, NaN => false
  | Fin x, Fin y => negb (Qle_bool y x)
  | NInf, NInf | PInf, PInf => false
  | NInf, _ => true
  | _, PInf => true
  | _, _ => false
  end.

(** [a === b] on numbers *)
Definition js_num_eq (a b : JsNum) : bool :=
  match a, b with
  | Fin x, Fin y => Qeq_bool x y
  | PInf, PInf | NInf, NInf => true
  | _, _ => false
  end.

Definition isNaN (a : JsNum) : bool :=
  match a with NaN => true | _ => false end.

(** ** JSON values *)

#[local] Set Warnings "-register-all".

Inductive JsValue : Type :=
| JUndefined
| JNull
| JBool (b : bool)
| JNumber (n : JsNum)
| JString (s : string)
| JArray (l : list JsValue)
| JObject (fields : list (string * JsValue)).

(** [!!v]: the truthiness of a value *)
Definition truthy (v : JsValue) : bool :=
  match v with
  | JUndefined | JNull => false
  | JBool b => b
  | JNumber NaN => false
  | JNumber (Fin q) => negb (Qeq_bool q 0)
  | JNumber _ => true
  | JString s => negb (String.eqb s "")
  | JArray _ | JObject _ => true
  end.

(** [a === b]: arrays and objects compare by reference, and a value read
    from a request body is never the same reference as a stored one *)
Definition strict_eq (a b : JsValue) : bool :=
  match a, b with
  | JUndefined, JUndefined | JNull, JNull => true
  | JBool x, JBool y => Bool.eqb x y
  | JNumber x, JNumber y => js_num_eq x y
  | JString x, JString y => String.eqb x y
  | _, _ => false
  end.

(** ** Numeric literals in strings *)

(** the white space of ASCII: tab, line feed, vertical tab, form feed,
    carriage return and space; the white space beyond ASCII (U+00A0,
    U+2003, U+FEFF and the like) is not told apart from other text *)
Definition is_white (c : ascii) : bool :=
  match nat_of_ascii c with
  | 9 | 10 | 11 | 12 | 13 | 32 => true
  | _ => false
  end%nat.

Definition is_digit (c : ascii) : bool :=
  let n := nat_of_ascii c in (48 <=? n)%nat && (n <=? 57)%nat.

Definition digit_val (c : ascii) : Z := Z.of_nat (nat_of_ascii c) - 48.

Fixpoint trim_left (s : string) : string :=
  match s with
  | String c r => if is_white c then trim_left r else s
  | EmptyString => s
  end.

(** reads decimal digits; returns the accumulated value, the number of
    digits read and the rest of the string *)
Fixpoint digits (s : string) (acc : Z) (count : nat) : Z * nat * string :=
  match s with
  | String c r =>
      if is_digit c then digits r (acc * 10 + digit_val c) (S count)
      else (acc, count, s)
  | EmptyString => (acc, count, s)
  end.

Fixpoint strip_prefix (p s : string) : option string :=
  match p, s with
  | EmptyString, _ => Some s
  | String a p', String b s' => if Ascii.eqb a b then strip_prefix p' s' else None
  | String _ _, EmptyString => None
  end.

(** ExponentPart, when one follows; otherwise nothing is consumed *)
Definition scan_exponent (s : string) : Z * string :=
  match s with
  | String c r =>
      if Ascii.eqb c "e" || Ascii.eqb c "E" then
        let '(sg, r1) :=
          match r with
          | String "+" r' => (1, r')
          | String "-" r' => (-1, r')
          | _ => (1, r)
          end%Z in
        let '(v, n, r2) := digits r1 0 0 in
        match n with
        | O => (0%Z, s)
        | S _ => ((sg * v)%Z, r2)
        end
      else (0%Z, s)
  | EmptyString => (0%Z, s)
  end.

(** the longest prefix that is a StrUnsignedDecimalLiteral *)
Definition scan_unsigned (s : string) : option (JsNum * string) :=
  match strip_prefix "Infinity" s with
  | Some r => Some (PInf, r)
  | None =>
      let '(iv, ic, r1) := digits s 0 0 in
      let '(mant, fc, r2) :=
        match r1 with
        | String "." r => digits r iv 0
        | _ => (iv, O, r1)
        end in
      match ic, fc with
      | O, O => None
      | _, _ =>
          let '(e, r3) := scan_exponent r2 in
          Some (Fin (Qred (inject_Z mant * Qpower 10 (e - Z.of_nat fc))), r3)
      end
  end.

(** the longest prefix that is a StrDecimalLiteral *)
Definition scan_decimal (s : string) : option (JsNum * string) :=
  match s with
  | String "+" r => scan_unsigned r
  | String "-" r =>
      match scan_unsigned r with
      | Some (v, r') => Some (js_neg v, r')
      | None => None
      end
  | _ => scan_unsigned s
  end.

(** [parseFloat(s)] on a string *)
Definition parseFloat_string (s : string) : JsNum :=
  match scan_decimal (trim_left s) with
  | Some (v, _) => v
  | None => NaN
  end.

Definition radix_digit (c : ascii) : option Z :=
  let n := nat_of_ascii c in
  if (48 <=? n)%nat && (n <=? 57)%nat then Some (Z.of_nat n - 48)%Z
  else if (97 <=? n)%nat && (n <=? 102)%nat then Some (Z.of_nat n - 87)%Z
  else if (65 <=? n)%nat && (n <=? 70)%nat then Some (Z.of_nat n - 55)%Z
  else None.

(** digits of the given radix up to the end of the literal *)
Fixpoint radix_digits (radix : Z) (s : string) (acc : Z) (count : nat)
  : Z * nat * string :=
  match s with
  | String c r =>
      match radix_digit c with
      | Some d =>
          if (d <? radix)%Z then radix_digits radix r (acc * radix + d) (S count)
          else (acc, count, s)
      | None => (acc, count, s)
      end
  | EmptyString => (acc, count, s)
  end.

(** NonDecimalIntegerLiteral: 0x.., 0o.., 0b.. *)
Definition scan_nondecimal (s : string) : option (JsNum * string) :=
  match s with
  | String "0" (String c r) =>
      let radix :=
        if Ascii.eqb c "x" || Ascii.eqb c "X" then Some 16%Z
        else if Ascii.eqb c "o" || Ascii.eqb c "O" then Some 8%Z
        else if Ascii.eqb c "b" || Ascii.eqb c "B" then Some 2%Z
        else None in
      match radix with
      | Some b =>
          let '(v, n, r') := radix_digits b r 0 0 in
          match n with
          | O => None
          | S _ => Some (Fin (inject_Z v), r')
          end
      | None => None
      end
  | _ => None
  end.

(** [Number(s)] on a string: the whole string has to be a numeric
    literal, surrounded by white space at most; the empty string is 0 *)
Definition StringToNumber (s : string) : JsNum :=
  let t := trim_left s in
  match t with
  | EmptyString => Fin 0
  | _ =>
      let lit :=
        match scan_nondecimal t with
        | Some r => Some r
        | None => scan_decimal t
        end in
      match lit with
      | Some (v, r) =>
          match trim_left r with
          | EmptyString => v
          | _ => NaN
          end
      | None => NaN
      end
  end.

(** [parseFloat(v)]: the argument is converted to a string first.  An array
    prints as its elements joined by commas, so that the literal read is the
    one of its first element; null and undefined elements print as the empty
    string. *)
Fixpoint parseFloat (v : JsValue) : JsNum :=
  match v with
  | JNumber n => n
  | JString s => parseFloat_string s
  | JArray (x :: _) =>
      match x with
      | JUndefined | JNull => NaN
      | _ => parseFloat x
      end
  | _ => NaN
  end.

(** [Number(v)], the conversion applied by [Math.min], [Math.max] and [-] *)
Fixpoint toNumber (v : JsValue) : JsNum :=
  match v with
  | JUndefined => NaN
  | JNull => Fin 0
  | JBool b => if b then Fin 1 else Fin 0
  | JNumber n => n
  | JString s => StringToNumber s
  | JArray nil => Fin 0
  | JArray (x :: nil) =>
      match x with
      | JUndefined | JNull => Fin 0
      | JBool _ => NaN
      | _ => toNumber x
      end
  | JArray _ => NaN
  | JObject _ => NaN
  end.

(** ** The two patterns of the registration handlers

    Strings are byte strings; of the characters [\s] matches, the ASCII ones
    (tab, line feed, vertical tab, form feed, carriage return, space) are
    modelled. *)

Fixpoint all_digits (s : string) : bool :=
  match s with
  | String c r => is_digit c && all_digits r
  | EmptyString => true
  end.

(** [/^\d{10}$/] *)
Definition phonePattern (s : string) : bool :=
  all_digits s && Nat.eqb (String.length s) 10.

(** [[^\s@]]: neither white space nor an at sign *)
Definition plain (c : ascii) : bool := negb (is_white c) && negb (Ascii.eqb c "@").

Fixpoint all_plain (s : string) : bool :=
  match s with
  | String c r => plain c && all_plain r
  | EmptyString => true
  end.

(** the text before the first at sign and the text after it *)
Fixpoint split_at_sign (s : string) : option (string * string) :=
  match s with
  | String c r =>
      if Ascii.eqb c "@" then Some (EmptyString, r)
      else match split_at_sign r with
           | Some (before, after) => Some (String c before, after)
           | None => None
           end
  | EmptyString => None
  end.

(** a dot that is followed by at least one more character *)
Fixpoint dot_before_last (s : string) : bool :=
  match s with
  | String c t =>
      match t with
      | EmptyString => false
      | String _ _ => Ascii.eqb c "." || dot_before_last t
      end
  | EmptyString => false
  end.

(** [/^[^\s@]+@[^\s@]+\.[^\s@]+$/]: the at sign matched is the first one of
    the string; what follows it has a dot that is neither its first nor its
    last character *)
Definition emailPattern (s : string) : bool :=
  match split_at_sign s with
  | Some (String c l, String d r) =>
      all_plain (String c l) && all_plain (String d r) && dot_before_last r
  | _ => false
  end.

(** ** The runtime

    What the handlers take from the JavaScript runtime and from azle, and
    whose inner working no handler depends on. *)

Class JsRuntime : Type := {
  (** [String(v)], applied by [RegExp.prototype.test] to its argument *)
  ToString : JsValue -> string;
  ToString_string : forall s, ToString (JString s) = s;
  (** the serialisation under which a [StableBTreeMap] files a key *)
  key_bytes : JsValue -> string;
  key_bytes_string : forall a b,
    key_bytes (JString a) = key_bytes (JString b) -> a = b;
  (** [new Date(v)], as the value the date is stored and sent as *)
  Date_new : JsValue -> JsValue
}.

(** what a request draws from its environment: the successive results of
    [uuidv4()], and [ic.time()] in nanoseconds *)
Record Env : Type := {
  uuidv4 : nat -> string;
  ic_time : Z
}.

(** ** Data model *)

(** the entities that are built with an object spread carry whatever
    fields the request body had: they are objects, not records *)
Abbreviation Obj := (gmap string JsValue).

Inductive PaymentStatus : Type := PENDING | PAID | FAILED.

Record Payment : Type := {
  pay_id : string;
  pay_childId : JsValue;
  pay_amount : JsNum;
  pay_status : PaymentStatus;
  pay_date : JsValue
}.

(** an entry of [balancePerChild] *)
Record Balance : Type := {
  bal_childId : JsValue;
  balance : JsNum
}.

Record State : Type := {
  childrenStorage : gmap string Obj;
  guardiansStorage : gmap string Obj;
  paymentsStorage : gmap string Payment;
  ownerStorage : gmap string Obj;
  feeStructureStorage : gmap string Obj
}.

Definition set_children (f : gmap string Obj -> gmap string Obj) (st : State) : State :=
  {| childrenStorage := f (childrenStorage st);
     guardiansStorage := guardiansStorage st;
     paymentsStorage := paymentsStorage st;
     ownerStorage := ownerStorage st;
     feeStructureStorage := feeStructureStorage st |}.

Definition set_guardians (f : gmap string Obj -> gmap string Obj) (st : State) : State :=
  {| childrenStorage := childrenStorage st;
     guardiansStorage := f (guardiansStorage st);
     paymentsStorage := paymentsStorage st;
     ownerStorage := ownerStorage st;
     feeStructureStorage := feeStructureStorage st |}.

Definition set_payments (f : gmap string Payment -> gmap string Payment) (st : State) : State :=
  {| childrenStorage := childrenStorage st;
     guardiansStorage := guardiansStorage st;
     paymentsStorage := f (paymentsStorage st);
     ownerStorage := ownerStorage st;
     feeStructureStorage := feeStructureStorage st |}.

Definition set_owner (f : gmap string Obj -> gmap string Obj) (st : State) : State :=
  {| childrenStorage := childrenStorage st;
     guardiansStorage := guardiansStorage st;
     paymentsStorage := paymentsStorage st;
     ownerStorage := f (ownerStorage st);
     feeStructureStorage := feeStructureStorage st |}.

Definition set_feeStructure (f : gmap string Obj -> gmap string Obj) (st : State) : State :=
  {| childrenStorage := childrenStorage st;
     guardiansStorage := guardiansStorage st;
     paymentsStorage := paymentsStorage st;
     ownerStorage := ownerStorage st;
     feeStructureStorage := f (feeStructureStorage st) |}.

(** [o.k], [undefined] when the object has no such field *)
Definition field (o : Obj) (k : string) : JsValue := default JUndefined (o !! k).

(** [{ ...base, ...over }]: the later spread wins *)
Definition spread (base over : Obj) : Obj := over ∪ base.

(** the body of a response *)
Inductive Payload : Type :=
| Message (message : string)
| StatusMessage (status : nat) (message : string)
| InArray (p : Payload)
| InvalidChildIds (message : string) (invalidChildIds : list JsValue)
| Created (status : option nat) (message : string) (entity : Obj)
| PaymentsCreated (status : option nat) (message : string)
    (payments : list Payment) (balancePerChild : list Balance)
| Entity (entity : Obj).

(** what a handler does with a request: it sends a response with a status
    code, or an exception escapes it *)
Inductive Outcome : Type :=
| Sent (code : nat) (p : Payload)
| Thrown (error : string).

(** [array.map(f)] where the callback reads and writes a variable of the
    enclosing scope *)
Fixpoint map_st {A B S : Type} (f : A -> S -> B * S) (l : list A) (s : S)
  : list B * S :=
  match l with
  | [] => ([], s)
  | x :: r =>
      let '(y, s1) := f x s in
      let '(ys, s2) := map_st f r s1 in
      (y :: ys, s2)
  end.

Section Storage.
Context `{JsRuntime}.
Context {V : Type}.

(** [storage.get(key)] *)
Definition storage_get (key : JsValue) (m : gmap string V) : option V :=
  m !! key_bytes key.

(** [storage.insert(key, value)]: an existing key is overwritten *)
Definition storage_insert (key : JsValue) (value : V) (m : gmap string V)
  : gmap string V :=
  <[key_bytes key := value]> m.

(** [storage.values()], in the order of the map, which need not be the
    order of the keys that the B-tree of the code keeps; no property
    below depends on which value comes first *)
Definition storage_values (m : gmap string V) : list V := (map_to_list m).*2.
End Storage.

Section Common.
Context `{JsRuntime}.

(** [getCurrentDate()] *)
Definition getCurrentDate (env : Env) : JsValue :=
  Date_new (JNumber (Fin (inject_Z (ic_time env) / 1000000))).

(** the callback of [childIds.map]: looks every id up and pushes the
    ones that are not found onto [invalidChildIds] *)
Fixpoint lookup_children (st : State) (childIds : list JsValue)
    (invalidChildIds : list JsValue) : list (option Obj) * list JsValue :=
  match childIds with
  | [] => ([], invalidChildIds)
  | childId :: rest =>
      match storage_get childId (childrenStorage st) with
      | None =>
          let '(cs, inv) := lookup_children st rest (invalidChildIds ++ [childId]) in
          (None :: cs, inv)
      | Some child =>
          let '(cs, inv) := lookup_children st rest invalidChildIds in
          (Some child :: cs, inv)
      end
  end.

(** [payments.forEach(p => paymentsStorage.insert(p.id, p))] *)
Definition store_payments (payments : list Payment) (st : State) : State :=
  fold_left
    (fun st payment =>
       set_payments (storage_insert (JString (pay_id payment)) payment) st)
    payments st.
End Common.

(** ** The refactored server *)

Module Refactored.
Section Handlers.
Context `{JsRuntime}.

Definition validateEmail (email : JsValue) : bool := emailPattern (ToString email).

Definition validatePhoneNumber (phoneNumber : JsValue) : bool :=
  phonePattern (ToString phoneNumber).

(** [POST /owner] *)
Definition postOwner (st : State) (env : Env) (body : Obj) : State * Outcome :=
  let name := field body "name" in
  let email := field body "email" in
  let phoneNumber := field body "phoneNumber" in
  if negb (truthy name) || negb (truthy email) || negb (truthy phoneNumber) then
    (st, Sent 400 (Message "Missing required fields"))
  else if negb (validatePhoneNumber phoneNumber) then
    (st, Sent 400 (Message "Invalid phone number format"))
  else if negb (validateEmail email) then
    (st, Sent 400 (Message "Invalid email format"))
  else if (0 <? length (storage_values (ownerStorage st)))%nat then
    (st, Sent 409 (Message "Owner already exists"))
  else
    let id := JString (uuidv4 env 0) in
    let owner : Obj :=
      list_to_map [("id", id); ("name", name); ("email", email);
                   ("phoneNumber", phoneNumber);
                   ("createdAt", getCurrentDate env)] in
    (set_owner (storage_insert id owner) st,
     Sent 201 (Created None "Owner created successfully" owner)).

(** [POST /children] *)
Definition postChildren (st : State) (env : Env) (body : Obj) : State * Outcome :=
  let name := field body "name" in
  let birthdate := field body "birthdate" in
  let guardianId := field body "guardianId" in
  if negb (truthy name) || negb (truthy birthdate) || negb (truthy guardianId) then
    (st, Sent 400 (Message "Missing required fields"))
  else
    match storage_get guardianId (guardiansStorage st) with
    | None => (st, Sent 404 (Message "Guardian not found"))
    | Some guardian =>
        let id := JString (uuidv4 env 0) in
        let child : Obj :=
          list_to_map [("id", id); ("name", name);
                       ("birthdate", Date_new birthdate);
                       ("guardianId", guardianId);
                       ("createdAt", getCurrentDate env)] in
        (set_children (storage_insert id child) st,
         Sent 201 (Created None "Child created successfully" child))
    end.

(** [POST /guardians] *)
Definition postGuardians (st : State) (env : Env) (body : Obj) : State * Outcome :=
  let name := field body "name" in
  let email := field body "email" in
  let phoneNumber := field body "phoneNumber" in
  if negb (truthy name) || negb (truthy email) || negb (truthy phoneNumber) then
    (st, Sent 400 (Message "Missing required fields"))
  else if negb (validatePhoneNumber phoneNumber) then
    (st, Sent 400 (Message "Invalid phone number format"))
  else if negb (validateEmail email) then
    (st, Sent 400 (Message "Invalid email format"))
  else
    match find (fun g => strict_eq (field g "email") email)
               (storage_values (guardiansStorage st)) with
    | Some existingGuardian =>
        (st, Sent 409 (Message "Guardian with the same email already exists"))
    | None =>
        let id := JString (uuidv4 env 0) in
        let guardian : Obj :=
          list_to_map [("id", id); ("name", name); ("email", email);
                       ("phoneNumber", phoneNumber);
                       ("childrenIds", JArray []);
                       ("createdAt", getCurrentDate env)] in
        (set_guardians (storage_insert id guardian) st,
         Sent 201 (Created None "Guardian created successfully" guardian))
    end.

(** [POST /fee-structure] *)
Definition postFeeStructure (st : State) (env : Env) (body : Obj) : State * Outcome :=
  let name := field body "name" in
  let amount := field body "amount" in
  let ownerId := field body "ownerId" in
  if negb (truthy name) || negb (truthy amount) || negb (truthy ownerId) then
    (st, Sent 400 (Message "Missing required fields"))
  else
    match storage_get ownerId (ownerStorage st) with
    | None => (st, Sent 404 (Message "Owner not found"))
    | Some owner =>
        let id := JString (uuidv4 env 0) in
        let feeStructure : Obj :=
          list_to_map [("id", id); ("name", name); ("amount", amount);
                       ("createdAt", getCurrentDate env)] in
        (set_feeStructure (storage_insert id feeStructure) st,
         Sent 201 (Created None "Fee structure created successfully" feeStructure))
    end.

(** the callback that builds [balancePerChild]; [amountNum] is the
    variable of the handler it reads and decrements *)
Definition balance_step (amountPerChild : JsValue) (child : Obj) (amountNum : JsNum)
  : Balance * JsNum :=
  let paymentAmount := Math_min (toNumber amountPerChild) amountNum in
  let amountNum := js_sub amountNum paymentAmount in
  let balance := Math_max (Fin 0) (js_sub (toNumber amountPerChild) paymentAmount) in
  ({| bal_childId := field child "id"; balance := balance |}, amountNum).

(** the callback that builds [payments]; it reads and decrements the same
    [amountNum], and draws one uuid per payment *)
Definition payment_step (env : Env) (amountPerChild : JsValue) (child : Obj)
    (s : JsNum * nat) : Payment * (JsNum * nat) :=
  let '(amountNum, calls) := s in
  let paymentAmount := Math_min (toNumber amountPerChild) amountNum in
  let amountNum := js_sub amountNum paymentAmount in
  ({| pay_id := uuidv4 env calls;
      pay_childId := field child "id";
      pay_amount := paymentAmount;
      pay_status := PAID;
      pay_date := getCurrentDate env |},
   (amountNum, S calls)).

(** [POST /payments] *)
Definition postPayments (st : State) (env : Env) (body : Obj) : State * Outcome :=
  let childIds := field body "childIds" in
  let amount := field body "amount" in
  let guardianId := field body "guardianId" in
  if negb (truthy childIds) || negb (truthy amount) || negb (truthy guardianId) then
    (st, Sent 400 (Message "Missing required fields"))
  else
    match storage_get guardianId (guardiansStorage st) with
    | None => (st, Sent 404 (Message "Guardian not found"))
    | Some guardian =>
        match storage_values (feeStructureStorage st) with
        | [] => (st, Sent 404 (Message "Fee structure not found"))
        | feeStructure :: _ =>
            let amountNum := parseFloat amount in
            if isNaN amountNum || js_le amountNum (Fin 0) then
              (st, Sent 400 (Message "Invalid amount"))
            else
              match childIds with
              | JArray ids =>
                  let '(found, invalidChildIds) := lookup_children st ids [] in
                  let validChildren := omap (fun c : option Obj => c) found in
                  if (0 <? length invalidChildIds)%nat then
                    (st, Sent 404 (InvalidChildIds "Invalid child IDs" invalidChildIds))
                  else
                    let amountPerChild := field feeStructure "amount" in
                    let '(balancePerChild, amountNum) :=
                      map_st (balance_step amountPerChild) validChildren amountNum in
                    let '(payments, _) :=
                      map_st (payment_step env amountPerChild) validChildren
                             (amountNum, O) in
                    (store_payments payments st,
                     Sent 201 (PaymentsCreated None "Payments created successfully"
                                 payments balancePerChild))
              | _ => (st, Thrown "TypeError: childIds.map is not a function")
              end
        end
    end.

(** [PUT /children/:id] *)
Definition putChildren (st : State) (id : string) (body : Obj) : State * Outcome :=
  match storage_get (JString id) (childrenStorage st) with
  | None => (st, Sent 404 (Message "Child not found"))
  | Some child =>
      let updatedChild := spread child body in
      (set_children (storage_insert (JString id) updatedChild) st,
       Sent 200 (Entity updatedChild))
  end.

(** [GET /children]: answers 200 with the list *)
Definition getChildren (st : State) : list Obj :=
  storage_values (childrenStorage st).

(** [GET /guardians]: answers 200 with the list *)
Definition getGuardians (st : State) : list Obj :=
  storage_values (guardiansStorage st).

(** [GET /owner/:id] *)
Definition getOwner (st : State) (id : string) : Outcome :=
  match storage_get (JString id) (ownerStorage st) with
  | None => Sent 404 (Message "Owner not found")
  | Some owner => Sent 200 (Entity owner)
  end.

(** [GET /fee-structure/:id] *)
Definition getFeeStructure (st : State) (id : string) : Outcome :=
  match storage_get (JString id) (feeStructureStorage st) with
  | None => Sent 404 (Message "Fee structure not found")
  | Some feeStructure => Sent 200 (Entity feeStructure)
  end.

(** [GET /children/:id] *)
Definition getChildrenById (st : State) (id : string) : Outcome :=
  match storage_get (JString id) (childrenStorage st) with
  | None => Sent 404 (Message "Child not found")
  | Some child => Sent 200 (Entity child)
  end.

(** [GET /guardians/:id] *)
Definition getGuardiansById (st : State) (id : string) : Outcome :=
  match storage_get (JString id) (guardiansStorage st) with
  | None => Sent 404 (Message "Guardian not found")
  | Some guardian => Sent 200 (Entity guardian)
  end.

(** [GET /payments]: answers 200 with the list *)
Definition getPayments (st : State) : list Payment :=
  storage_values (paymentsStorage st).
End Handlers.
End Refactored.

(** ** The server of [src/index.ts] *)

Module IndexTs.
Section Handlers.
Context `{JsRuntime}.

(** [POST /owner] *)
Definition postOwner (st : State) (env : Env) (body : Obj) : State * Outcome :=
  if negb (truthy (field body "name")) || negb (truthy (field body "email"))
     || negb (truthy (field body "phoneNumber")) then
    (st, Sent 400 (Message "Missing required fields"))
  else if negb (phonePattern (ToString (field body "phoneNumber"))) then
    (st, Sent 400 (InArray (StatusMessage 400 "Invalid phone number format")))
  else if negb (emailPattern (ToString (field body "email"))) then
    (st, Sent 400 (InArray (StatusMessage 400 "Invalid email format")))
  else
    match find (fun o => strict_eq (field o "email") (field body "email"))
               (storage_values (ownerStorage st)) with
    | Some owner1 =>
        (st, Sent 409 (StatusMessage 409 "Owner with the same email already exists"))
    | None =>
        let owner : Obj :=
          spread (list_to_map [("id", JString (uuidv4 env 0));
                               ("createdAt", getCurrentDate env)]) body in
        (set_owner (storage_insert (field owner "id") owner) st,
         Sent 200 (InArray (Created (Some 200) "Owner created successfully" owner)))
    end.

(** [POST /children] *)
Definition postChildren (st : State) (env : Env) (body : Obj) : State * Outcome :=
  if negb (truthy (field body "name")) || negb (truthy (field body "birthdate"))
     || negb (truthy (field body "guardianId")) then
    (st, Sent 400 (Message "Missing required fields"))
  else
    match storage_get (field body "guardianId") (guardiansStorage st) with
    | None => (st, Sent 404 (Message "Guardian not found"))
    | Some guardian =>
        let child : Obj :=
          spread (list_to_map [("id", JString (uuidv4 env 0));
                               ("createdAt", getCurrentDate env)]) body in
        (set_children (storage_insert (field child "id") child) st,
         Sent 200 (InArray (Created (Some 200) "Child created successfully" child)))
    end.

(** [POST /guardians] *)
Definition postGuardians (st : State) (env : Env) (body : Obj) : State * Outcome :=
  if negb (truthy (field body "name")) || negb (truthy (field body "email"))
     || negb (truthy (field body "phoneNumber")) then
    (st, Sent 400 (Message "Missing required fields"))
  else if negb (phonePattern (ToString (field body "phoneNumber"))) then
    (st, Sent 400 (InArray (StatusMessage 400 "Invalid phone number format")))
  else if negb (emailPattern (ToString (field body "email"))) then
    (st, Sent 400 (InArray (StatusMessage 400 "Invalid email format")))
  else
    match find (fun g => strict_eq (field g "email") (field body "email"))
               (storage_values (guardiansStorage st)) with
    | Some guardian1 =>
        (st, Sent 409 (StatusMessage 409 "Guardian with the same email already exists"))
    | None =>
        let guardian : Obj :=
          spread (list_to_map [("id", JString (uuidv4 env 0));
                               ("createdAt", getCurrentDate env);
                               ("childrenIds", JArray [])]) body in
        (set_guardians (storage_insert (field guardian "id") guardian) st,
         Sent 200 (InArray (Created (Some 200) "Guardian created successfully" guardian)))
    end.

(** [POST /fee-structure] *)
Definition postFeeStructure (st : State) (env : Env) (body : Obj) : State * Outcome :=
  if negb (truthy (field body "name")) || negb (truthy (field body "amount"))
     || negb (truthy (field body "ownerId")) then
    (st, Sent 400 (Message "Missing required fields"))
  else
    match storage_get (field body "ownerId") (ownerStorage st) with
    | None => (st, Sent 404 (Message "Owner not found"))
    | Some owner =>
        let name := field body "name" in
        let amount := field body "amount" in
        let feeStructure : Obj :=
          spread (list_to_map [("id", JString (uuidv4 env 0));
                               ("createdAt", getCurrentDate env);
                               ("name", name); ("amount", amount)]) body in
        (set_feeStructure (storage_insert (field feeStructure "id") feeStructure) st,
         Sent 200 (InArray (Created (Some 200) "Fee structure created successfully"
                              feeStructure)))
    end.

(** the callback that builds [balancePerChild]; [amount] is the variable
    of the handler it reads and decrements *)
Definition balance_step (amountPerChild : JsValue) (child : option Obj) (amount : JsNum)
  : Balance * JsNum :=
  match child with
  | None => ({| bal_childId := JString ""; balance := Fin 0 |}, amount)
  | Some child =>
      let paymentAmount := Math_min (toNumber amountPerChild) amount in
      let amount := js_sub amount paymentAmount in
      let balance := Math_max (Fin 0) (js_sub (toNumber amountPerChild) paymentAmount) in
      ({| bal_childId := field child "id"; balance := balance |}, amount)
  end.

(** the callback that builds [payments], before the nulls are filtered
    out; it reads and decrements the same [amount] *)
Definition payment_step (env : Env) (amountPerChild : JsValue) (child : option Obj)
    (s : JsNum * nat) : option Payment * (JsNum * nat) :=
  match child with
  | None => (None, s)
  | Some child =>
      let '(amount, calls) := s in
      let paymentAmount := Math_min (toNumber amountPerChild) amount in
      let amount := js_sub amount paymentAmount in
      (Some {| pay_id := uuidv4 env calls;
               pay_childId := field child "id";
               pay_amount := paymentAmount;
               pay_status := PAID;
               pay_date := getCurrentDate env |},
       (amount, S calls))
  end.

(** [POST /payments] *)
Definition postPayments (st : State) (env : Env) (body : Obj) : State * Outcome :=
  if negb (truthy (field body "childIds")) || negb (truthy (field body "amount"))
     || negb (truthy (field body "guardianId")) then
    (st, Sent 400 (Message "Missing required fields"))
  else
    match storage_get (field body "guardianId") (guardiansStorage st) with
    | None => (st, Sent 404 (Message "Guardian not found"))
    | Some guardian =>
        let feeStructure := head (storage_values (feeStructureStorage st)) in
        let amount := parseFloat (field body "amount") in
        if isNaN amount || js_le amount (Fin 0) then
          (st, Sent 400 (Message "Invalid amount"))
        else
          match field body "childIds" with
          | JArray ids =>
              let '(validChildren, invalidChildIds) := lookup_children st ids [] in
              if (0 <? length invalidChildIds)%nat then
                (st, Sent 404 (InvalidChildIds "Invalid child IDs" invalidChildIds))
              else
                match feeStructure with
                | None =>
                    (st, Thrown "TypeError: Cannot read properties of undefined (reading 'amount')")
                | Some feeStructure =>
                    let amountPerChild := field feeStructure "amount" in
                    let '(balancePerChild, amount) :=
                      map_st (balance_step amountPerChild) validChildren amount in
                    let '(built, _) :=
                      map_st (payment_step env amountPerChild) validChildren
                             (amount, O) in
                    let payments := omap (fun p : option Payment => p) built in
                    (store_payments payments st,
                     Sent 200 (InArray (PaymentsCreated (Some 200)
                                          "Payments created successfully"
                                          payments balancePerChild)))
                end
          | _ => (st, Thrown "TypeError: req.body.childIds.map is not a function")
          end
    end.

(** [PUT /children/:id] *)
Definition putChildren (st : State) (id : string) (body : Obj) : State * Outcome :=
  match storage_get (JString id) (childrenStorage st) with
  | None => (st, Sent 404 (StatusMessage 404 "Child not found"))
  | Some child =>
      let updatedChild := spread child body in
      (set_children (storage_insert (JString id) updatedChild) st,
       Sent 200 (Entity updatedChild))
  end.

(** [GET /children]: answers 200 with the list *)
Definition getChildren (st : State) : list Obj :=
  storage_values (childrenStorage st).

(** [GET /guardians]: answers 200 with the list *)
Definition getGuardians (st : State) : list Obj :=
  storage_values (guardiansStorage st).

(** [GET /owner/:id] *)
Definition getOwner (st : State) (id : string) : Outcome :=
  match storage_get (JString id) (ownerStorage st) with
  | None => Sent 404 (StatusMessage 404 "Owner not found")
  | Some owner => Sent 200 (Entity owner)
  end.

(** [GET /fee-structure/:id] *)
Definition getFeeStructure (st : State) (id : string) : Outcome :=
  match storage_get (JString id) (feeStructureStorage st) with
  | None => Sent 404 (StatusMessage 404 "Fee structure not found")
  | Some feeStructure => Sent 200 (Entity feeStructure)
  end.

(** [GET /children/:id] *)
Definition getChildrenById (st : State) (id : string) : Outcome :=
  match storage_get (JString id) (childrenStorage st) with
  | None => Sent 404 (StatusMessage 404 "Child not found")
  | Some child => Sent 200 (Entity child)
  end.

(** [GET /guardians/:id] *)
Definition getGuardiansById (st : State) (id : string) : Outcome :=
  match storage_get (JString id) (guardiansStorage st) with
  | None => Sent 404 (StatusMessage 404 "Guardian not found")
  | Some guardian => Sent 200 (Entity guardian)
  end.

(** [GET /payments]: answers 200 with the list *)
Definition getPayments (st : State) : list Payment :=
  storage_values (paymentsStorage st).
End Handlers.
End IndexTs.

(** ** The first version of the server, kept at the end of [src/index.ts] *)

Module Initial.
Section Handlers.
Context `{JsRuntime}.

(** [POST /children]: no validation *)
Definition postChildren (st : State) (env : Env) (body : Obj) : State * Outcome :=
  let child : Obj :=
    spread (list_to_map [("id", JString (uuidv4 env 0));
                         ("createdAt", getCurrentDate env)]) body in
  (set_children (storage_insert (field child "id") child) st,
   Sent 200 (Entity child)).
End Handlers.
End Initial.

(** ** The two servers side by side *)

Inductive Server : Type := index_ts | refactored.

Section Dispatch.
Context `{JsRuntime}.

Definition postOwner (srv : Server) : State -> Env -> Obj -> State * Outcome :=
  match srv with
  | index_ts => IndexTs.postOwner
  | refactored => Refactored.postOwner
  end.

Definition postChildren (srv : Server) : State -> Env -> Obj -> State * Outcome :=
  match srv with
  | index_ts => IndexTs.postChildren
  | refactored => Refactored.postChildren
  end.

Definition postGuardians (srv : Server) : State -> Env -> Obj -> State * Outcome :=
  match srv with
  | index_ts => IndexTs.postGuardians
  | refactored => Refactored.postGuardians
  end.

Definition postFeeStructure (srv : Server) : State -> Env -> Obj -> State * Outcome :=
  match srv with
  | index_ts => IndexTs.postFeeStructure
  | refactored => Refactored.postFeeStructure
  end.

Definition postPayments (srv : Server) : State -> Env -> Obj -> State * Outcome :=
  match srv with
  | index_ts => IndexTs.postPayments
  | refactored => Refactored.postPayments
  end.

Definition putChildren (srv : Server) : State -> string -> Obj -> State * Outcome :=
  match srv with
  | index_ts => IndexTs.putChildren
  | refactored => Refactored.putChildren
  end.
End Dispatch.

(** ** The four kinds of registered entity *)

Inductive Kind : Type := an_owner | a_child | a_guardian | a_fee_structure.

Definition storage_of (kind : Kind) (st : State) : gmap string Obj :=
  match kind with
  | an_owner => ownerStorage st
  | a_child => childrenStorage st
  | a_guardian => guardiansStorage st
  | a_fee_structure => feeStructureStorage st
  end.

Definition set_storage_of (kind : Kind)
  : (gmap string Obj -> gmap string Obj) -> State -> State :=
  match kind with
  | an_owner => set_owner
  | a_child => set_children
  | a_guardian => set_guardians
  | a_fee_structure => set_feeStructure
  end.

Section Queries.
Context `{JsRuntime}.

(** the handler that registers an entity of the kind *)
Definition post (srv : Server) (kind : Kind)
  : State -> Env -> Obj -> State * Outcome :=
  match kind with
  | an_owner => postOwner srv
  | a_child => postChildren srv
  | a_guardian => postGuardians srv
  | a_fee_structure => postFeeStructure srv
  end.

(** the handler that answers with the entity of the kind under an id *)
Definition getById (srv : Server) (kind : Kind) : State -> string -> Outcome :=
  match srv, kind with
  | index_ts, an_owner => IndexTs.getOwner
  | index_ts, a_child => IndexTs.getChildrenById
  | index_ts, a_guardian => IndexTs.getGuardiansById
  | index_ts, a_fee_structure => IndexTs.getFeeStructure
  | refactored, an_owner => Refactored.getOwner
  | refactored, a_child => Refactored.getChildrenById
  | refactored, a_guardian => Refactored.getGuardiansById
  | refactored, a_fee_structure => Refactored.getFeeStructure
  end.

Definition getPayments (srv : Server) : State -> list Payment :=
  match srv with
  | index_ts => IndexTs.getPayments
  | refactored => Refactored.getPayments
  end.

Definition getChildren (srv : Server) : State -> list Obj :=
  match srv with
  | index_ts => IndexTs.getChildren
  | refactored => Refactored.getChildren
  end.

Definition getGuardians (srv : Server) : State -> list Obj :=
  match srv with
  | index_ts => IndexTs.getGuardians
  | refactored => Refactored.getGuardians
  end.
End Queries.

(** a response in the 400s, or an exception *)
Definition is_error (out : Outcome) : bool :=
  match out with
  | Sent code _ => (400 <=? code)%nat
  | Thrown _ => true
  end.

(** ** Requests and the states they lead to

    The requests that write to the store; the GET handlers only read. *)

Inductive Request : Type :=
| PostOwner (body : Obj)
| PostChildren (body : Obj)
| PostGuardians (body : Obj)
| PostFeeStructure (body : Obj)
| PostPayments (body : Obj)
| PutChildren (id : string) (body : Obj).

Definition empty_state : State :=
  {| childrenStorage := ∅;
     guardiansStorage := ∅;
     paymentsStorage := ∅;
     ownerStorage := ∅;
     feeStructureStorage := ∅ |}.

Section Run.
Context `{JsRuntime}.

Definition handle (srv : Server) (st : State) (env : Env) (req : Request)
  : State * Outcome :=
  match req with
  | PostOwner body => postOwner srv st env body
  | PostChildren body => postChildren srv st env body
  | PostGuardians body => postGuardians srv st env body
  | PostFeeStructure body => postFeeStructure srv st env body
  | PostPayments body => postPayments srv st env body
  | PutChildren id body => putChildren srv st id body
  end.

(** the store after a sequence of requests, each with its environment *)
Definition run (srv : Server) (reqs : list (Env * Request)) (st : State) : State :=
  fold_left (fun st '(env, req) => (handle srv st env req).1) reqs st.

(** the states a server can be in *)
Inductive reachable (srv : Server) : State -> Prop :=
| reachable_empty : reachable srv empty_state
| reachable_step (st : State) (env : Env) (req : Request) :
    reachable srv st -> reachable srv (handle srv st env req).1.
End Run.

(** ** The allocation as the specification words it

    [remaining fee requested i] is what is left of the requested amount
    before the i-th child is served, and [applied fee requested i] what the
    i-th child receives: [applied = min(feePerChild, remaining)], then
    [remaining -= applied]. *)

Fixpoint remaining (fee requested : JsNum) (i : nat) : JsNum :=
  match i with
  | O => requested
  | S j => js_sub (remaining fee requested j)
                  (Math_min fee (remaining fee requested j))
  end.

Definition applied (fee requested : JsNum) (i : nat) : JsNum :=
  Math_min fee (remaining fee requested i).

(** [balance = max(0, feePerChild - applied)] *)
Definition owed (fee requested : JsNum) (i : nat) : JsNum :=
  Math_max (Fin 0) (js_sub fee (applied fee requested i)).

(** ** Reading a response *)

(** the payments and balances of a successful [POST /payments] *)
Definition allocated (out : Outcome) : option (list Payment * list Balance) :=
  match out with
  | Sent 201 (PaymentsCreated _ _ payments balancePerChild) =>
      Some (payments, balancePerChild)
  | Sent 200 (InArray (PaymentsCreated _ _ payments balancePerChild)) =>
      Some (payments, balancePerChild)
  | _ => None
  end.

(** the payment amounts and the balances of a successful [POST /payments] *)
Definition amounts (out : Outcome) : option (list JsNum * list JsNum) :=
  match allocated out with
  | Some (payments, balancePerChild) =>
      Some (map pay_amount payments, map balance balancePerChild)
  | None => None
  end.

Definition payments_of (out : Outcome) : list Payment :=
  match allocated out with
  | Some (payments, _) => payments
  | None => []
  end.

Definition balances_of (out : Outcome) : list Balance :=
  match allocated out with
  | Some (_, balancePerChild) => balancePerChild
  | None => []
  end.

(** the entity of a successful creation *)
Definition created (out : Outcome) : option Obj :=
  match out with
  | Sent 201 (Created _ _ entity) => Some entity
  | Sent 200 (InArray (Created _ _ entity)) => Some entity
  | Sent 200 (Entity entity) => Some entity
  | _ => None
  end.

Definition entity_of (out : Outcome) : Obj := default ∅ (created out).

(** the ids of [childIds] that no stored child answers to, in order *)
Definition unresolved `{JsRuntime} (st : State) (ids : list JsValue) : list JsValue :=
  List.filter
    (fun id => match storage_get id (childrenStorage st) with
               | None => true
               | Some _ => false
               end) ids.

(** whether a guardian's [childrenIds] holds the given id *)
Definition lists_child (guardian : Obj) (childId : JsValue) : bool :=
  match field guardian "childrenIds" with
  | JArray l => existsb (strict_eq childId) l
  | _ => false
  end.

(** a number that is finite or infinite, and not below zero *)
Definition nonneg (r : JsNum) : Prop :=
  match r with
  | Fin x => (0 <= x)%Q
  | PInf => True
  | _ => False
  end.

(** [n] times the fee *)
Definition times (n : nat) (f : Q) : Q := inject_Z (Z.of_nat n) * f.

(** [Number.isSafeInteger]: a whole number of magnitude below 2^53.  A
    double holds such a number exactly, and the difference of two of them
    whose result is one of them again is computed without rounding *)
Definition safe_integer (n : JsNum) : bool :=
  match n with
  | Fin q =>
      let r := Qred q in
      (Qden r =? 1)%positive && (Z.abs (Qnum r) <? 2 ^ 53)%Z
  | _ => false
  end.

(** a string of ASCII characters only *)
Fixpoint ascii_only (s : string) : bool :=
  match s with
  | EmptyString => true
  | String c t => (nat_of_ascii c <? 128)%nat && ascii_only t
  end.

(** ** A runtime and a populated store for the examples

    [print] is [String(v)] on strings, null, undefined and booleans; the
    examples hand it nothing else.  Keys are filed under the string
    itself. *)

Definition print (v : JsValue) : string :=
  match v with
  | JString s => s
  | JUndefined => "undefined"
  | JNull => "null"
  | JBool true => "true"
  | JBool false => "false"
  | _ => ""
  end.

Definition key_of (v : JsValue) : string :=
  match v with
  | JString s => s
  | _ => ""
  end.

Definition demo_runtime : JsRuntime :=
  {| ToString := print;
     ToString_string := fun s => eq_refl;
     key_bytes := key_of;
     key_bytes_string := fun a b (E : key_of (JString a) = key_of (JString b)) => E;
     Date_new := fun v => v |}.

(** the environment of a request that allocates payments *)
Definition demo_env : Env :=
  {| uuidv4 := fun n => String (ascii_of_nat (48 + n)) "-uuid";
     ic_time := 1700000000000000000 |}.

(** the environment of a registration that draws the given uuid *)
Definition registering (id : string) : Env :=
  {| uuidv4 := fun _ => id; ic_time := 1700000000000000000 |}.

Definition obj (l : list (string * JsValue)) : Obj := list_to_map l.

(** the registrations: one owner, one guardian, two children *)
Definition registrations_no_fee : list (Env * Request) :=
  [ (registering "o",
     PostOwner (obj [("name", JString "Olga");
                     ("email", JString "olga@daycare.org");
                     ("phoneNumber", JString "0123456789")]));
    (registering "g",
     PostGuardians (obj [("name", JString "Gil");
                         ("email", JString "gil@home.org");
                         ("phoneNumber", JString "0123456789")]));
    (registering "c1",
     PostChildren (obj [("name", JString "Ann");
                        ("birthdate", JString "2020-02-29");
                        ("guardianId", JString "g")]));
    (registering "c2",
     PostChildren (obj [("name", JString "Bob");
                        ("birthdate", JString "2021-03-01");
                        ("guardianId", JString "g")])) ].

(** and one fee structure of 100 *)
Definition registrations : list (Env * Request) :=
  registrations_no_fee ++
  [ (registering "f",
     PostFeeStructure (obj [("name", JString "standard");
                            ("amount", JNumber (Fin 100));
                            ("ownerId", JString "o")])) ].

(** the store of a server after the registrations *)
Definition demo_state (srv : Server) : State :=
  @run demo_runtime srv registrations empty_state.

(** the same before the fee structure was registered *)
Definition demo_state_no_fee (srv : Server) : State :=
  @run demo_runtime srv registrations_no_fee empty_state.

(** what the refactored server has stored *)
Definition created_at : JsValue := @getCurrentDate demo_runtime (registering "").

Definition child_c1 : Obj :=
  obj [("id", JString "c1"); ("name", JString "Ann");
       ("birthdate", JString "2020-02-29"); ("guardianId", JString "g");
       ("createdAt", created_at)].

Definition child_c2 : Obj :=
  obj [("id", JString "c2"); ("name", JString "Bob");
       ("birthdate", JString "2021-03-01"); ("guardianId", JString "g");
       ("createdAt", created_at)].

Definition guardian_g : Obj :=
  obj [("id", JString "g"); ("name", JString "Gil");
       ("email", JString "gil@home.org");
       ("phoneNumber", JString "0123456789");
       ("childrenIds", JArray []); ("createdAt", created_at)].

Definition owner_o : Obj :=
  obj [("id", JString "o"); ("name", JString "Olga");
       ("email", JString "olga@daycare.org");
       ("phoneNumber", JString "0123456789"); ("createdAt", created_at)].

Definition fee_100 : Obj :=
  obj [("id", JString "f"); ("name", JString "standard");
       ("amount", JNumber (Fin 100)); ("createdAt", created_at)].

Definition refactored_store : State :=
  {| childrenStorage := {[ "c1" := child_c1; "c2" := child_c2 ]};
     guardiansStorage := {[ "g" := guardian_g ]};
     paymentsStorage := ∅;
     ownerStorage := {[ "o" := owner_o ]};
     feeStructureStorage := {[ "f" := fee_100 ]} |}.

(** scenario A: 150 for the two children *)
Definition scenario_A : Obj :=
  obj [("childIds", JArray [JString "c1"; JString "c2"]);
       ("amount", JNumber (Fin 150)); ("guardianId", JString "g")].

(** 150 for a known and an unknown child *)
Definition scenario_C : Obj :=
  obj [("childIds", JArray [JString "c1"; JString "nobody"]);
       ("amount", JNumber (Fin 150)); ("guardianId", JString "g")].

(** an amount that is the text of zero *)
Definition request_zero_text : Obj :=
  obj [("childIds", JArray [JString "c1"]);
       ("amount", JString "0"); ("guardianId", JString "g")].

(** a second owner, under another email *)
Definition second_owner : Obj :=
  obj [("name", JString "Otto"); ("email", JString "otto@daycare.org");
       ("phoneNumber", JString "9876543210")].

Definition new_child : Obj :=
  obj [("name", JString "Cleo"); ("birthdate", JString "2021-05-17");
       ("guardianId", JString "g")].

Definition negative_fee : Obj :=
  obj [("name", JString "refund"); ("amount", JNumber (Fin (-5)));
       ("ownerId", JString "o")].

Definition rename_child : Obj := obj [("name", JString "Anna")].

(** an amount of zero *)
Definition request_zero : Obj :=
  obj [("childIds", JArray [JString "c1"]);
       ("amount", JNumber (Fin 0)); ("guardianId", JString "g")].

(** scenario B: 250 for the two children *)
Definition scenario_B : Obj :=
  obj [("childIds", JArray [JString "c1"; JString "c2"]);
       ("amount", JNumber (Fin 250)); ("guardianId", JString "g")].

(** 150 for three places, the first child named twice *)
Definition scenario_D : Obj :=
  obj [("childIds", JArray [JString "c1"; JString "c2"; JString "c1"]);
       ("amount", JNumber (Fin 150)); ("guardianId", JString "g")].

(** a guardian whose registration names a child of its own accord, the
    store of [src/index.ts] after it, and a child for that guardian *)
Definition guardian_naming_a_child : Obj :=
  obj [("name", JString "Hal"); ("email", JString "hal@home.org");
       ("phoneNumber", JString "0123456789");
       ("childrenIds", JArray [JString "c9"])].

Definition state_naming_a_child : State :=
  (@handle demo_runtime index_ts (demo_state index_ts) (registering "h")
     (PostGuardians guardian_naming_a_child)).1.

Definition child_of_h : Obj :=
  obj [("name", JString "Cleo"); ("birthdate", JString "2021-05-17");
       ("guardianId", JString "h")].

(** the [childrenIds] of the guardian filed under the given id *)
Definition childrenIds_of (id : string) (st : State) : JsValue :=
  match guardiansStorage st !! id with
  | Some guardian => field guardian "childrenIds"
  | None => JUndefined
  end.

(** child ids that are a text, and no child ids at all *)
Definition request_text_ids : Obj :=
  obj [("childIds", JString "c1");
       ("amount", JNumber (Fin 150)); ("guardianId", JString "g")].


(** a child that brings the id of a stored one *)
Definition child_with_id : Obj :=
  obj [("id", JString "c1"); ("name", JString "Eve");
       ("birthdate", JString "2022-07-04"); ("guardianId", JString "g")].

(** a second guardian, and the store of the refactored server with her *)
Definition second_guardian : Obj :=
  obj [("name", JString "Hana"); ("email", JString "hana@home.org");
       ("phoneNumber", JString "5550001111")].

Definition two_guardians : State :=
  (@handle demo_runtime refactored (demo_state refactored) (registering "h")
     (PostGuardians second_guardian)).1.

Definition guardian_h : Obj :=
  obj [("id", JString "h"); ("name", JString "Hana");
       ("email", JString "hana@home.org");
       ("phoneNumber", JString "5550001111");
       ("childrenIds", JArray []); ("createdAt", created_at)].

(** the first payment the refactored server stores for scenario A *)
Definition payment_0 : Payment :=
  {| pay_id := "0-uuid";
     pay_childId := JString "c1";
     pay_amount := Fin 0;
     pay_status := PAID;
     pay_date := created_at |}.

(** the store of the refactored server after scenario A *)
Definition after_scenario_A : State :=
  (@handle demo_runtime refactored (demo_state refactored) demo_env
     (PostPayments scenario_A)).1.

(** ** Proof steps that recur *)

(** boolean comparisons of rationals as propositions *)
Ltac q_prop :=
  repeat match goal with
  | H : Qle_bool _ _ = true |- _ => apply Qle_bool_iff in H
  | H : Qle_bool ?x ?y = false |- _ =>
      assert (~ (x <= y)%Q) by (rewrite <- Qle_bool_iff; congruence); clear H
  | H : Qeq_bool _ _ = true |- _ => apply Qeq_bool_iff in H
  | H : negb _ = true |- _ => apply negb_true_iff in H
  | H : negb _ = false |- _ => apply negb_false_iff in H
  end.

(** follows a handler through its branches *)
Ltac run_in H :=
  repeat (simpl in H;
          match type of H with
          | context [if ?b then _ else _] => destruct b eqn:?
          | context [match ?x with _ => _ end] => destruct x eqn:?
          end);
  simpl in H.

(** * Properties *)

(** ** Numeric literals, by example *)

Example parseFloat_150 : parseFloat (JString "150") = Fin 150.
Proof. reflexivity. Qed.

Example parseFloat_prefix : parseFloat (JString "  -12.50e1px") = Fin (-125).
Proof. reflexivity. Qed.

Example parseFloat_dot : parseFloat (JString ".") = NaN.
Proof. reflexivity. Qed.

Example parseFloat_half : parseFloat (JString ".5") = Fin (1 # 2).
Proof. reflexivity. Qed.

Example parseFloat_open_exponent : parseFloat (JString "1e") = Fin 1.
Proof. reflexivity. Qed.

Example parseFloat_infinity : parseFloat (JString "-Infinity") = NInf.
Proof. reflexivity. Qed.

Example parseFloat_array : parseFloat (JArray [JNumber (Fin 150); JString "x"]) = Fin 150.
Proof. reflexivity. Qed.

Example parseFloat_true : parseFloat (JBool true) = NaN.
Proof. reflexivity. Qed.

Example toNumber_hex : toNumber (JString " 0x1F ") = Fin 31.
Proof. reflexivity. Qed.

Example toNumber_px : toNumber (JString "12px") = NaN.
Proof. reflexivity. Qed.

Example toNumber_empty : toNumber (JString "") = Fin 0.
Proof. reflexivity. Qed.

Example toNumber_text : toNumber (JString "100") = Fin 100.
Proof. reflexivity. Qed.

Example email_examples :
  map emailPattern ["a@b.co"; "a@b"; "a@.co"; "a@b."; "a b@c.d"; "a@b@c.d"; "a@b.c.d"]
  = [true; false; false; false; false; false; true].
Proof. reflexivity. Qed.

Example phone_examples :
  map phonePattern ["0123456789"; "012345678"; "01234567890"; "012345678a"]
  = [true; false; false; false].
Proof. reflexivity. Qed.

Section Allocation.
Context `{JsRuntime}.

(** ** The validation of the child ids *)

Lemma lookup_children_spec (st : State) (ids acc : list JsValue) :
  lookup_children st ids acc =
  (map (fun id => storage_get id (childrenStorage st)) ids,
   acc ++ unresolved st ids).
Proof.
  revert acc. induction ids as [|id ids IH]; intros acc; simpl.
  - by rewrite app_nil_r.
  - destruct (storage_get id (childrenStorage st)) as [child|] eqn:E.
    + by rewrite IH.
    + rewrite IH. by rewrite <- app_assoc.
Qed.

Lemma unresolved_nil_found (st : State) (ids : list JsValue) :
  unresolved st ids = [] ->
  let found := map (fun id => storage_get id (childrenStorage st)) ids in
  found = Some <$> omap (fun c : option Obj => c) found /\
  Forall2 (fun id child => storage_get id (childrenStorage st) = Some child)
          ids (omap (fun c : option Obj => c) found).
Proof.
  induction ids as [|id ids IH]; simpl; intros Hnil.
  - split; [done | constructor].
  - destruct (storage_get id (childrenStorage st)) as [child|] eqn:E; [|done].
    destruct (IH Hnil) as [IH1 IH2]. simpl. split.
    + f_equal. exact IH1.
    + constructor; done.
Qed.

Lemma unresolved_elem (st : State) (ids : list JsValue) (id : JsValue) :
  In id ids -> storage_get id (childrenStorage st) = None ->
  unresolved st ids <> [].
Proof.
  intros Hin Hnone Hnil.
  assert (Hid : In id (unresolved st ids)).
  { unfold unresolved. apply filter_In. split; [done|]. by rewrite Hnone. }
  rewrite Hnil in Hid. destruct Hid.
Qed.

(** ** The two passes over the children *)

Lemma remaining_shift (fee a : JsNum) (i : nat) :
  remaining fee a (S i) = remaining fee (js_sub a (Math_min fee a)) i.
Proof.
  induction i as [|i IH]; [done|].
  change (remaining fee a (S (S i))) with
    (js_sub (remaining fee a (S i)) (Math_min fee (remaining fee a (S i)))).
  rewrite IH. done.
Qed.

Lemma remaining_add (fee a : JsNum) (n i : nat) :
  remaining fee (remaining fee a n) i = remaining fee a (n + i).
Proof.
  revert a. induction n as [|n IH]; intros a; [done|].
  rewrite remaining_shift, IH. simpl Nat.add. by rewrite remaining_shift.
Qed.

Lemma balance_pass (feeV : JsValue) (children : list Obj) (a : JsNum)
    (bs : list Balance) (r : JsNum) :
  map_st (Refactored.balance_step feeV) children a = (bs, r) ->
  r = remaining (toNumber feeV) a (length children) /\
  length bs = length children /\
  forall i child, children !! i = Some child ->
    bs !! i = Some {| bal_childId := field child "id";
                      balance := owed (toNumber feeV) a i |}.
Proof.
  revert a bs r. induction children as [|c children IH]; intros a bs r; simpl.
  - intros [= <- <-]. repeat split. intros i child Hi. by destruct i.
  - destruct (map_st _ children _) as [bs' r'] eqn:E.
    intros [= <- <-]. destruct (IH _ _ _ E) as (Hr & Hlen & Hbs).
    split; [|split].
    + rewrite Hr. symmetry. apply remaining_shift.
    + simpl. by rewrite Hlen.
    + intros [|i] child Hi; simpl in *.
      * by injection Hi as ->.
      * rewrite (Hbs i child Hi). unfold owed, applied.
        by rewrite remaining_shift.
Qed.

Lemma payment_pass (env : Env) (feeV : JsValue) (children : list Obj)
    (a : JsNum) (k : nat) (ps : list Payment) (s : JsNum * nat) :
  map_st (Refactored.payment_step env feeV) children (a, k) = (ps, s) ->
  s = (remaining (toNumber feeV) a (length children), (k + length children)%nat) /\
  length ps = length children /\
  forall i child, children !! i = Some child ->
    ps !! i = Some {| pay_id := uuidv4 env (k + i);
                      pay_childId := field child "id";
                      pay_amount := applied (toNumber feeV) a i;
                      pay_status := PAID;
                      pay_date := getCurrentDate env |}.
Proof.
  revert a k ps s. induction children as [|c children IH]; intros a k ps s; simpl.
  - intros [= <- <-]. rewrite Nat.add_0_r. repeat split.
    intros i child Hi. by destruct i.
  - destruct (map_st _ children _) as [ps' s'] eqn:E.
    intros [= <- <-]. destruct (IH _ _ _ _ E) as (Hs & Hlen & Hps).
    split; [|split].
    + rewrite Hs. rewrite <- remaining_shift. f_equal.
      symmetry. apply Nat.add_succ_r.
    + simpl. by rewrite Hlen.
    + intros [|i] child Hi; simpl in *.
      * injection Hi as ->. by rewrite Nat.add_0_r.
      * rewrite (Hps i child Hi). unfold applied.
        rewrite remaining_shift. by rewrite Nat.add_succ_r.
Qed.

(** on children that were all found, the callbacks of [src/index.ts]
    do what the refactored ones do *)
Lemma index_balance_pass (feeV : JsValue) (children : list Obj) (a : JsNum) :
  map_st (IndexTs.balance_step feeV) (Some <$> children) a =
  map_st (Refactored.balance_step feeV) children a.
Proof.
  revert a. induction children as [|c children IH]; intros a; simpl; [done|].
  by rewrite IH.
Qed.

Lemma index_payment_pass (env : Env) (feeV : JsValue) (children : list Obj)
    (s : JsNum * nat) :
  map_st (IndexTs.payment_step env feeV) (Some <$> children) s =
  (Some <$> (map_st (Refactored.payment_step env feeV) children s).1,
   (map_st (Refactored.payment_step env feeV) children s).2).
Proof.
  revert s. induction children as [|c children IH]; intros [a k]; simpl; [done|].
  rewrite IH. by destruct (map_st _ children _).
Qed.

Lemma omap_Some_fmap {A : Type} (l : list A) :
  omap (fun x : option A => x) (Some <$> l) = l.
Proof. induction l as [|x l IH]; simpl; [done|]. by f_equal. Qed.

(** ** What a successful [POST /payments] went through *)

Lemma allocation_inv (srv : Server) (st st' : State) (env : Env) (body : Obj)
    (out : Outcome) (ps : list Payment) (bs : list Balance) :
  postPayments srv st env body = (st', out) ->
  allocated out = Some (ps, bs) ->
  exists ids fs children r s,
    field body "childIds" = JArray ids /\
    head (storage_values (feeStructureStorage st)) = Some fs /\
    truthy (field body "amount") = true /\
    isNaN (parseFloat (field body "amount")) = false /\
    js_le (parseFloat (field body "amount")) (Fin 0) = false /\
    is_Some (storage_get (field body "guardianId") (guardiansStorage st)) /\
    Forall2 (fun id child => storage_get id (childrenStorage st) = Some child)
            ids children /\
    map_st (Refactored.balance_step (field fs "amount")) children
           (parseFloat (field body "amount")) = (bs, r) /\
    map_st (Refactored.payment_step env (field fs "amount")) children (r, O)
      = (ps, s) /\
    st' = store_payments ps st.
Proof.
  intros Hrun Hout. destruct srv; simpl in Hrun.
  - unfold IndexTs.postPayments in Hrun.
    destruct (truthy (field body "childIds")) eqn:Hc; simpl in Hrun;
      [|by simplify_eq].
    destruct (truthy (field body "amount")) eqn:Ha; simpl in Hrun;
      [|by simplify_eq].
    destruct (truthy (field body "guardianId")) eqn:Hg; simpl in Hrun;
      [|by simplify_eq].
    destruct (storage_get (field body "guardianId") (guardiansStorage st))
      as [guardian|] eqn:Hguard; [|by simplify_eq].
    destruct (isNaN (parseFloat (field body "amount"))) eqn:Hnan;
      simpl in Hrun; [by simplify_eq|].
    destruct (js_le (parseFloat (field body "amount")) (Fin 0)) eqn:Hle;
      [by simplify_eq|].
    destruct (field body "childIds") as [| | | | |ids|] eqn:Hids;
      try by simplify_eq.
    rewrite lookup_children_spec in Hrun. simpl in Hrun.
    destruct (unresolved st ids) as [|bad l] eqn:Hbad; simpl in Hrun;
      [|by simplify_eq].
    destruct (head (storage_values (feeStructureStorage st))) as [fs|] eqn:Hfs;
      [|by simplify_eq].
    destruct (unresolved_nil_found st ids Hbad) as [Hfound Hall].
    simpl in Hfound. rewrite Hfound in Hrun.
    rewrite index_balance_pass in Hrun.
    destruct (map_st (Refactored.balance_step _) _ _) as [bs' r] eqn:Hb.
    rewrite index_payment_pass, omap_Some_fmap in Hrun.
    destruct (map_st (Refactored.payment_step _ _) _ _) as [ps' s] eqn:Hp.
    simpl in Hrun. simplify_eq. simpl in Hout. simplify_eq.
    eexists ids, fs, _, r, s. by repeat split.
  - unfold Refactored.postPayments in Hrun.
    destruct (truthy (field body "childIds")) eqn:Hc; simpl in Hrun;
      [|by simplify_eq].
    destruct (truthy (field body "amount")) eqn:Ha; simpl in Hrun;
      [|by simplify_eq].
    destruct (truthy (field body "guardianId")) eqn:Hg; simpl in Hrun;
      [|by simplify_eq].
    destruct (storage_get (field body "guardianId") (guardiansStorage st))
      as [guardian|] eqn:Hguard; [|by simplify_eq].
    destruct (storage_values (feeStructureStorage st)) as [|fs fss] eqn:Hfs;
      [by simplify_eq|].
    destruct (isNaN (parseFloat (field body "amount"))) eqn:Hnan;
      simpl in Hrun; [by simplify_eq|].
    destruct (js_le (parseFloat (field body "amount")) (Fin 0)) eqn:Hle;
      [by simplify_eq|].
    destruct (field body "childIds") as [| | | | |ids|] eqn:Hids;
      try by simplify_eq.
    rewrite lookup_children_spec in Hrun. simpl in Hrun.
    destruct (unresolved st ids) as [|bad l] eqn:Hbad; simpl in Hrun;
      [|by simplify_eq].
    destruct (unresolved_nil_found st ids Hbad) as [Hfound Hall].
    destruct (map_st (Refactored.balance_step _) _ _) as [bs' r] eqn:Hb.
    destruct (map_st (Refactored.payment_step _ _) _ _) as [ps' s] eqn:Hp.
    simplify_eq. simpl in Hout. simplify_eq.
    eexists ids, fs, _, r, s. by repeat split.
Qed.
End Allocation.

(** ** Arithmetic of one allocation step *)

Lemma Qle_bool_false (x y : Q) : (y < x)%Q -> Qle_bool x y = false.
Proof.
  intros Hlt. apply not_true_is_false. rewrite Qle_bool_iff. lra.
Qed.

Lemma positive_of_valid (r : JsNum) :
  isNaN r = false -> js_le r (Fin 0) = false -> js_lt (Fin 0) r = true.
Proof.
  destruct r as [|x| |]; simpl; try done.
  intros _ Hle. by rewrite Hle.
Qed.

Lemma nonneg_of_valid (r : JsNum) :
  isNaN r = false -> js_le r (Fin 0) = false -> nonneg r.
Proof.
  destruct r as [|x| |]; simpl; try done.
  intros _ Hle. q_prop. lra.
Qed.

(** a fee that is not above zero never brings what is left down to zero *)
Lemma step_nonzero (fee r : JsNum) :
  js_lt (Fin 0) fee = false ->
  js_lt (Fin 0) r = true \/ r = NaN ->
  js_lt (Fin 0) (js_sub r (Math_min fee r)) = true \/
  js_sub r (Math_min fee r) = NaN.
Proof.
  intros Hfee [Hr| ->]; [|destruct fee; by right].
  destruct fee as [|f| |], r as [|x| |]; simpl in *; try done; auto.
  left. q_prop. unfold Qminb.
  destruct (Qle_bool f x) eqn:Hfx; q_prop; rewrite negb_true_iff;
    apply Qle_bool_false; lra.
Qed.

Lemma remaining_nonzero (fee requested : JsNum) (i : nat) :
  js_lt (Fin 0) fee = false ->
  js_lt (Fin 0) requested = true ->
  js_num_eq (remaining fee requested i) (Fin 0) = false.
Proof.
  intros Hfee Hreq.
  assert (Hinv : js_lt (Fin 0) (remaining fee requested i) = true \/
                 remaining fee requested i = NaN).
  { induction i as [|i IH]; cbn [remaining]; [by left|]. by apply step_nonzero. }
  destruct Hinv as [Hpos|Hnan]; [|by rewrite Hnan].
  destruct (remaining fee requested i) as [|x| |]; simpl in *; try done.
  q_prop. apply not_true_is_false. rewrite Qeq_bool_iff.
  intros Hx. apply H. rewrite Hx. lra.
Qed.

(** with a fee above zero, nothing left stays nothing left, and the whole
    fee is owed *)
Lemma zero_step (fee r : JsNum) :
  js_lt (Fin 0) fee = true ->
  js_num_eq r (Fin 0) = true ->
  js_num_eq (js_sub r (Math_min fee r)) (Fin 0) = true /\
  js_num_eq (Math_max (Fin 0) (js_sub fee (Math_min fee r))) fee = true.
Proof.
  intros Hfee Hr.
  destruct fee as [|f| |], r as [|x| |]; simpl in *; try done.
  - q_prop. unfold Qminb, Qmaxb.
    rewrite (Qle_bool_false f x) by lra.
    assert (Hle : Qle_bool 0 (f - x) = true) by (apply Qle_bool_iff; lra).
    rewrite Hle. split; apply Qeq_bool_iff; lra.
  - q_prop. split; [|done]. apply Qeq_bool_iff. lra.
Qed.

Lemma zero_stays (fee requested : JsNum) (i j : nat) :
  js_lt (Fin 0) fee = true ->
  js_num_eq (remaining fee requested i) (Fin 0) = true ->
  (i <= j)%nat ->
  js_num_eq (remaining fee requested j) (Fin 0) = true.
Proof.
  intros Hfee Hi Hij. induction Hij as [|j Hij IH]; [done|].
  cbn [remaining]. by apply zero_step.
Qed.

(** a positive fee and a remainder that is not negative give a payment
    between zero and the fee, and leave a remainder that is not negative *)
Lemma applied_bounds (f : Q) (r : JsNum) :
  (0 < f)%Q -> nonneg r ->
  exists a, Math_min (Fin f) r = Fin a /\ (0 <= a <= f)%Q /\
            nonneg (js_sub r (Fin a)).
Proof.
  intros Hf Hr. destruct r as [|x| |]; simpl in *; try done.
  - exists (Qminb f x). split; [done|]. unfold Qminb.
    destruct (Qle_bool f x) eqn:Hfx; q_prop; lra.
  - exists f. repeat split; lra.
Qed.

Lemma remaining_nonneg (f : Q) (requested : JsNum) (i : nat) :
  (0 < f)%Q -> nonneg requested -> nonneg (remaining (Fin f) requested i).
Proof.
  intros Hf Hreq. induction i as [|i IH]; cbn [remaining]; [done|].
  destruct (applied_bounds f _ Hf IH) as (a & -> & _ & Hnext). done.
Qed.

(** ** The payment allocator *)

Section Allocator.
Context `{JsRuntime}.

(** What the payments of a successful allocation amount to: the pass that
    builds them starts from what the pass over the balances left, so the
    i-th payment is the share of position [n + i], [n] being the number of
    children. *)
Lemma payments_apply_the_leftover (srv : Server) (st st' : State) (env : Env)
    (body : Obj) (out : Outcome) (ps : list Payment) (bs : list Balance)
    (ids : list JsValue) (fs : Obj) :
  postPayments srv st env body = (st', out) ->
  allocated out = Some (ps, bs) ->
  field body "childIds" = JArray ids ->
  head (storage_values (feeStructureStorage st)) = Some fs ->
  length ps = length ids /\
  forall i p, ps !! i = Some p ->
    pay_amount p = applied (toNumber (field fs "amount"))
                           (parseFloat (field body "amount"))
                           (length ids + i) /\
    pay_status p = PAID /\ pay_id p = uuidv4 env i.
Proof.
  intros Hrun Hout Hids Hfs.
  destruct (allocation_inv _ _ _ _ _ _ _ _ Hrun Hout)
    as (ids' & fs' & children & r & s & Hids' & Hfs' & _ & _ & _ & _
        & Hall & Hb & Hp & _).
  rewrite Hids in Hids'. injection Hids' as <-.
  rewrite Hfs in Hfs'. injection Hfs' as <-.
  apply balance_pass in Hb as (Hr & _ & _).
  apply payment_pass in Hp as (_ & Hlen & Hps).
  pose proof (Forall2_length _ _ _ Hall) as Hn.
  split; [congruence|].
  intros i p Hi.
  destruct (lookup_lt_is_Some_2 children i) as [child Hchild].
  { rewrite <- Hlen. by eapply lookup_lt_Some. }
  rewrite (Hps i child Hchild) in Hi. injection Hi as <-. simpl.
  repeat split. unfold applied.
  by rewrite Hr, remaining_add, Hn.
Qed.

(** C2: in a successful allocation, the i-th balance entry is for the
    child the i-th id resolves to and amounts to
    [max(0, fee - applied_i)], with [applied_i = min(fee, remaining_i)];
    there is one entry per child id; and from the position where nothing
    remains on, every balance is the whole fee. *)
Theorem balances_first_come_first_funded (srv : Server) (st st' : State)
    (env : Env) (body : Obj) (out : Outcome) (ps : list Payment)
    (bs : list Balance) (ids : list JsValue) (fs : Obj) :
  postPayments srv st env body = (st', out) ->
  allocated out = Some (ps, bs) ->
  field body "childIds" = JArray ids ->
  head (storage_values (feeStructureStorage st)) = Some fs ->
  let fee := toNumber (field fs "amount") in
  let requested := parseFloat (field body "amount") in
  length bs = length ids /\
  (forall i id, ids !! i = Some id ->
     exists child,
       storage_get id (childrenStorage st) = Some child /\
       bs !! i = Some {| bal_childId := field child "id";
                         balance := owed fee requested i |}) /\
  (forall i j b,
     js_num_eq (remaining fee requested i) (Fin 0) = true ->
     (i <= j)%nat -> bs !! j = Some b ->
     js_num_eq (balance b) fee = true).
Proof.
  intros Hrun Hout Hids Hfs fee requested.
  destruct (allocation_inv _ _ _ _ _ _ _ _ Hrun Hout)
    as (ids' & fs' & children & r & s & Hids' & Hfs' & _ & Hnan & Hle & _
        & Hall & Hb & _ & _).
  rewrite Hids in Hids'. injection Hids' as <-.
  rewrite Hfs in Hfs'. injection Hfs' as <-.
  apply balance_pass in Hb as (_ & Hlen & Hbs).
  pose proof (Forall2_length _ _ _ Hall) as Hn.
  assert (Hentry : forall i id, ids !! i = Some id ->
     exists child,
       storage_get id (childrenStorage st) = Some child /\
       bs !! i = Some {| bal_childId := field child "id";
                         balance := owed fee requested i |}).
  { intros i id Hi.
    destruct (Forall2_lookup_l _ _ _ _ _ Hall Hi) as (child & Hchild & Hget).
    exists child. split; [done|]. by apply Hbs. }
  split; [congruence|]. split; [exact Hentry|].
  intros i j b Hzero Hij Hj.
  destruct (lookup_lt_is_Some_2 ids j) as [id Hid].
  { rewrite Hn, <- Hlen. by eapply lookup_lt_Some. }
  destruct (Hentry j id Hid) as (child & _ & Hj').
  rewrite Hj' in Hj. injection Hj as <-. simpl.
  destruct (js_lt (Fin 0) fee) eqn:Hfee.
  - apply zero_step; [done|]. by eapply zero_stays.
  - rewrite remaining_nonzero in Hzero; [done..|].
    by apply positive_of_valid.
Qed.

(** C7: in a successful allocation under a fee that is a positive number,
    every payment amount is a number between zero and the fee. *)
Theorem payment_amounts_within_fee (srv : Server) (st st' : State)
    (env : Env) (body : Obj) (out : Outcome) (ps : list Payment)
    (bs : list Balance) (fs : Obj) (f : Q) :
  postPayments srv st env body = (st', out) ->
  allocated out = Some (ps, bs) ->
  head (storage_values (feeStructureStorage st)) = Some fs ->
  toNumber (field fs "amount") = Fin f ->
  (0 < f)%Q ->
  forall p, p ∈ ps ->
    exists a, pay_amount p = Fin a /\ (0 <= a <= f)%Q.
Proof.
  intros Hrun Hout Hfs Hfee Hf p Hp.
  destruct (allocation_inv _ _ _ _ _ _ _ _ Hrun Hout)
    as (ids & fs' & children & r & s & Hids & Hfs' & _ & Hnan & Hle & _
        & Hall & _).
  rewrite Hfs in Hfs'. injection Hfs' as <-.
  apply list_elem_of_lookup in Hp as [i Hi].
  destruct (payments_apply_the_leftover _ _ _ _ _ _ _ _ _ _
              Hrun Hout Hids Hfs) as [_ Hamount].
  destruct (Hamount i p Hi) as (-> & _). unfold applied. rewrite Hfee.
  destruct (applied_bounds f
              (remaining (Fin f) (parseFloat (field body "amount"))
                         (length ids + i)) Hf)
    as (a & Ha & Hbound & _).
  { apply remaining_nonneg; [done|]. by apply nonneg_of_valid. }
  by exists a.
Qed.
End Allocator.

(** ** Validation comes before any write *)

Section Validation.
Context `{JsRuntime}.

Lemma truthy_field_present (body : Obj) (k : string) :
  truthy (field body k) = true -> body !! k = Some (field body k).
Proof.
  unfold field. by destruct (body !! k).
Qed.

Lemma storage_values_nil {V : Type} (m : gmap string V) :
  storage_values m = [] <-> m = ∅.
Proof.
  unfold storage_values. rewrite <- map_to_list_empty_iff.
  by destruct (map_to_list m).
Qed.

(** a [POST /payments] that does not answer with payments wrote nothing *)
Lemma postPayments_failure (srv : Server) (st st' : State) (env : Env)
    (body : Obj) (out : Outcome) :
  postPayments srv st env body = (st', out) ->
  allocated out = None -> st' = st.
Proof.
  intros Hrun Hout. destruct srv; simpl in Hrun.
  - unfold IndexTs.postPayments in Hrun. run_in Hrun; by simplify_eq.
  - unfold Refactored.postPayments in Hrun. run_in Hrun; by simplify_eq.
Qed.

(** C3: when an id of [childIds] resolves to no child, nothing is written
    and no payment is answered; and once the request is past the checks
    that come first (fields present, guardian found, a fee structure
    registered in the refactored server, amount valid), the answer is 404
    with exactly the unresolved ids, in the order of the request. *)
Theorem invalid_child_ids_fail_atomically (srv : Server) (st st' : State)
    (env : Env) (body : Obj) (out : Outcome) (ids : list JsValue)
    (id : JsValue) :
  postPayments srv st env body = (st', out) ->
  field body "childIds" = JArray ids ->
  id ∈ ids ->
  storage_get id (childrenStorage st) = None ->
  st' = st /\
  paymentsStorage st' = paymentsStorage st /\
  allocated out = None /\
  (forall x, In x (unresolved st ids) <->
             In x ids /\ storage_get x (childrenStorage st) = None) /\
  (truthy (field body "amount") = true ->
   truthy (field body "guardianId") = true ->
   is_Some (storage_get (field body "guardianId") (guardiansStorage st)) ->
   (srv = refactored -> storage_values (feeStructureStorage st) <> []) ->
   isNaN (parseFloat (field body "amount")) = false ->
   js_le (parseFloat (field body "amount")) (Fin 0) = false ->
   out = Sent 404 (InvalidChildIds "Invalid child IDs" (unresolved st ids))).
Proof.
  intros Hrun Hids Hid Hnone.
  assert (Hbad : unresolved st ids <> []).
  { apply (unresolved_elem st ids id); [by apply list_elem_of_In|done]. }
  assert (Hout : allocated out = None).
  { destruct (allocated out) as [[ps bs]|] eqn:Hout; [|done].
    destruct (allocation_inv _ _ _ _ _ _ _ _ Hrun Hout)
      as (ids' & _ & children & _ & _ & Hids' & _ & _ & _ & _ & _ & Hall & _).
    rewrite Hids in Hids'. injection Hids' as <-.
    apply list_elem_of_lookup in Hid as [i Hi].
    destruct (Forall2_lookup_l _ _ _ _ _ Hall Hi) as (child & _ & Hget).
    congruence. }
  assert (Hst : st' = st) by (by eapply postPayments_failure).
  split; [done|]. split; [by rewrite Hst|]. split; [done|]. split.
  { intros x. unfold unresolved. rewrite filter_In.
    by destruct (storage_get x (childrenStorage st)); intuition. }
  intros Ha Hg [guardian Hguard] Hfee Hnan Hle.
  destruct srv; simpl in Hrun.
  - unfold IndexTs.postPayments in Hrun.
    rewrite Hids, Ha, Hg, Hguard, Hnan, Hle in Hrun. simpl in Hrun.
    rewrite lookup_children_spec in Hrun. simpl in Hrun.
    destruct (unresolved st ids); [done|]. simpl in Hrun. by simplify_eq.
  - unfold Refactored.postPayments in Hrun.
    rewrite Hids, Ha, Hg, Hguard in Hrun. simpl in Hrun.
    destruct (storage_values (feeStructureStorage st)) as [|fs fss];
      [by destruct Hfee|].
    rewrite Hnan, Hle in Hrun. simpl in Hrun.
    rewrite lookup_children_spec in Hrun. simpl in Hrun.
    destruct (unresolved st ids); [done|]. simpl in Hrun. by simplify_eq.
Qed.

(** the refactored server answers 404 when no fee structure is
    registered, once the fields are present and the guardian is found *)
Lemma refactored_without_fee_structure (st st' : State) (env : Env)
    (body : Obj) (out : Outcome) :
  feeStructureStorage st = ∅ ->
  Refactored.postPayments st env body = (st', out) ->
  st' = st /\
  (truthy (field body "childIds") = true ->
   truthy (field body "amount") = true ->
   truthy (field body "guardianId") = true ->
   is_Some (storage_get (field body "guardianId") (guardiansStorage st)) ->
   out = Sent 404 (Message "Fee structure not found")).
Proof.
  intros Hempty Hrun. apply storage_values_nil in Hempty.
  unfold Refactored.postPayments in Hrun. rewrite Hempty in Hrun.
  split.
  - run_in Hrun; by simplify_eq.
  - intros Hc Ha Hg [guardian Hguard].
    rewrite Hc, Ha, Hg, Hguard in Hrun. simpl in Hrun. by simplify_eq.
Qed.

(** the server of [src/index.ts] throws on the same request, once it has
    passed every check *)
Lemma index_without_fee_structure (st : State) (env : Env) (body : Obj)
    (ids : list JsValue) :
  feeStructureStorage st = ∅ ->
  field body "childIds" = JArray ids ->
  truthy (field body "amount") = true ->
  truthy (field body "guardianId") = true ->
  is_Some (storage_get (field body "guardianId") (guardiansStorage st)) ->
  isNaN (parseFloat (field body "amount")) = false ->
  js_le (parseFloat (field body "amount")) (Fin 0) = false ->
  unresolved st ids = [] ->
  IndexTs.postPayments st env body =
  (st, Thrown "TypeError: Cannot read properties of undefined (reading 'amount')").
Proof.
  intros Hempty Hids Ha Hg [guardian Hguard] Hnan Hle Hbad.
  apply storage_values_nil in Hempty.
  unfold IndexTs.postPayments.
  rewrite Hids, Ha, Hg, Hguard, Hnan, Hle, Hempty. simpl.
  rewrite lookup_children_spec, Hbad. done.
Qed.

(** the refactored server never adds an owner to a store that has one *)
Lemma refactored_single_owner (st st' : State) (env : Env) (body : Obj)
    (out : Outcome) :
  ownerStorage st <> ∅ ->
  Refactored.postOwner st env body = (st', out) ->
  st' = st /\
  (truthy (field body "name") = true ->
   truthy (field body "email") = true ->
   truthy (field body "phoneNumber") = true ->
   Refactored.validatePhoneNumber (field body "phoneNumber") = true ->
   Refactored.validateEmail (field body "email") = true ->
   out = Sent 409 (Message "Owner already exists")).
Proof.
  intros Hne Hrun. unfold Refactored.postOwner in Hrun.
  assert (Hlen : (0 <? length (storage_values (ownerStorage st)))%nat = true).
  { destruct (storage_values (ownerStorage st)) eqn:E; [|done].
    by apply storage_values_nil in E. }
  rewrite Hlen in Hrun. split.
  - run_in Hrun; by simplify_eq.
  - intros Hn He Hp Hphone Hemail.
    rewrite Hn, He, Hp, Hphone, Hemail in Hrun. simpl in Hrun. by simplify_eq.
Qed.
End Validation.

(** ** Registration and update *)

Section Registration.
Context `{JsRuntime}.

Lemma field_spread_over (base body : Obj) (k : string) :
  truthy (field body k) = true ->
  field (spread base body) k = field body k.
Proof.
  intros Hk. apply truthy_field_present in Hk.
  unfold field at 1, spread. by rewrite (lookup_union_Some_l _ _ _ _ Hk).
Qed.

(** what a child creation that succeeds has done *)
Lemma postChildren_inv (srv : Server) (st st' : State)
    (env : Env) (body : Obj) (out : Outcome) (child : Obj) :
  postChildren srv st env body = (st', out) ->
  created out = Some child ->
  guardiansStorage st' = guardiansStorage st /\
  is_Some (storage_get (field body "guardianId") (guardiansStorage st)) /\
  field child "guardianId" = field body "guardianId" /\
  storage_get (field child "id") (childrenStorage st') = Some child.
Proof.
  intros Hrun Hout. destruct srv; simpl in Hrun.
  - unfold IndexTs.postChildren in Hrun.
    destruct (truthy (field body "name")); simpl in Hrun; [|by simplify_eq].
    destruct (truthy (field body "birthdate")); simpl in Hrun; [|by simplify_eq].
    destruct (truthy (field body "guardianId")) eqn:Hg; simpl in Hrun;
      [|by simplify_eq].
    destruct (storage_get (field body "guardianId") (guardiansStorage st))
      eqn:Hguard; [|by simplify_eq].
    simplify_eq. simpl in Hout. simplify_eq. simpl.
    repeat split; [done|by apply field_spread_over|].
    unfold storage_get, storage_insert. by rewrite lookup_insert_eq.
  - unfold Refactored.postChildren in Hrun.
    destruct (truthy (field body "name")); simpl in Hrun; [|by simplify_eq].
    destruct (truthy (field body "birthdate")); simpl in Hrun; [|by simplify_eq].
    destruct (truthy (field body "guardianId")) eqn:Hg; simpl in Hrun;
      [|by simplify_eq].
    destruct (storage_get (field body "guardianId") (guardiansStorage st))
      eqn:Hguard; [|by simplify_eq].
    simplify_eq. simpl in Hout. simplify_eq. simpl.
    repeat split; [done|].
    unfold storage_get, storage_insert.
    replace (field _ "id") with (JString (uuidv4 env 0)) by done.
    by rewrite lookup_insert_eq.
Qed.

(** C6, as the code has it: a child creation that succeeds files the
    child under its id, with the guardian id of the request, and leaves
    the guardians store as it was: the guardian of the request is after
    the creation the record it was before, and every guardian has the
    [childrenIds] it had, whatever that list was. *)
Theorem child_creation_keeps_guardians (srv : Server) (st st' : State)
    (env : Env) (body : Obj) (out : Outcome) (child : Obj) :
  postChildren srv st env body = (st', out) ->
  created out = Some child ->
  guardiansStorage st' = guardiansStorage st /\
  (exists guardian,
     storage_get (field body "guardianId") (guardiansStorage st)
       = Some guardian /\
     storage_get (field body "guardianId") (guardiansStorage st')
       = Some guardian) /\
  (forall key guardian',
     storage_get key (guardiansStorage st') = Some guardian' ->
     exists guardian,
       storage_get key (guardiansStorage st) = Some guardian /\
       field guardian' "childrenIds" = field guardian "childrenIds") /\
  field child "guardianId" = field body "guardianId" /\
  storage_get (field child "id") (childrenStorage st') = Some child.
Proof.
  intros Hrun Hout.
  destruct (postChildren_inv _ _ _ _ _ _ _ Hrun Hout)
    as (Hsame & [guardian Hguard] & Hid & Hstored).
  split_and!; [done| |by rewrite Hsame; eauto|done|done].
  exists guardian. by rewrite Hsame.
Qed.

(** the first version, which checks nothing, does not touch the
    guardians store either *)
Lemma initial_child_creation_keeps_guardians (st : State) (env : Env)
    (body : Obj) :
  guardiansStorage (Initial.postChildren st env body).1 = guardiansStorage st.
Proof. done. Qed.

(** what [POST /fee-structure] does: nothing, or it stores the fee
    structure it answers with, whose amount is the truthy amount of the
    request *)
Lemma postFeeStructure_inv (srv : Server) (st st' : State) (env : Env)
    (body : Obj) (out : Outcome) :
  postFeeStructure srv st env body = (st', out) ->
  (created out = None /\ st' = st) \/
  (exists fs,
     created out = Some fs /\
     st' = set_feeStructure (storage_insert (field fs "id") fs) st /\
     field fs "amount" = field body "amount" /\
     truthy (field body "amount") = true).
Proof.
  intros Hrun. destruct srv; simpl in Hrun.
  - unfold IndexTs.postFeeStructure in Hrun.
    destruct (truthy (field body "name")); simpl in Hrun;
      [|left; by simplify_eq].
    destruct (truthy (field body "amount")) eqn:Ha; simpl in Hrun;
      [|left; by simplify_eq].
    destruct (truthy (field body "ownerId")); simpl in Hrun;
      [|left; by simplify_eq].
    destruct (storage_get (field body "ownerId") (ownerStorage st));
      [|left; by simplify_eq].
    right. simplify_eq. eexists. split; [done|]. split; [done|].
    split; [|done]. by apply field_spread_over.
  - unfold Refactored.postFeeStructure in Hrun.
    destruct (truthy (field body "name")); simpl in Hrun;
      [|left; by simplify_eq].
    destruct (truthy (field body "amount")) eqn:Ha; simpl in Hrun;
      [|left; by simplify_eq].
    destruct (truthy (field body "ownerId")); simpl in Hrun;
      [|left; by simplify_eq].
    destruct (storage_get (field body "ownerId") (ownerStorage st));
      [|left; by simplify_eq].
    right. simplify_eq. eexists. split; [done|]. by split.
Qed.

(** C8, as the code has it: the fee structure a successful
    [POST /fee-structure] stores carries the amount of the request, and
    that amount is truthy: not zero and not [NaN] when it is a number.
    Nothing requires it to be positive. *)
Theorem stored_fee_amount_is_truthy (srv : Server) (st st' : State)
    (env : Env) (body : Obj) (out : Outcome) (fs : Obj) :
  postFeeStructure srv st env body = (st', out) ->
  created out = Some fs ->
  feeStructureStorage st' =
    storage_insert (field fs "id") fs (feeStructureStorage st) /\
  field fs "amount" = field body "amount" /\
  truthy (field fs "amount") = true /\
  (forall n, field fs "amount" = JNumber n ->
     isNaN n = false /\ js_num_eq n (Fin 0) = false).
Proof.
  intros Hrun Hout.
  destruct (postFeeStructure_inv _ _ _ _ _ _ Hrun)
    as [[Hnone _]|(fs' & Hsome & -> & Hamount & Htruthy)]; [congruence|].
  rewrite Hout in Hsome. injection Hsome as <-. rewrite Hamount.
  split_and!; try done.
  intros n Hn. rewrite Hn in Htruthy.
  destruct n as [|q| |]; simpl in *; try done.
  split; [done|]. by apply negb_true_iff.
Qed.

(** C9: [PUT /children/:id] on a stored child stores, under the same id,
    a child that has every field of the body with the body's value and
    every other field as it was; it answers with that child; no other
    child and no other store changes. *)
Theorem put_child_overwrites_supplied_fields (srv : Server) (st st' : State)
    (id : string) (body : Obj) (out : Outcome) (child : Obj) :
  storage_get (JString id) (childrenStorage st) = Some child ->
  putChildren srv st id body = (st', out) ->
  exists updated,
    storage_get (JString id) (childrenStorage st') = Some updated /\
    out = Sent 200 (Entity updated) /\
    (forall k v, body !! k = Some v -> updated !! k = Some v) /\
    (forall k, body !! k = None -> updated !! k = child !! k) /\
    (forall other, other <> id ->
       storage_get (JString other) (childrenStorage st') =
       storage_get (JString other) (childrenStorage st)) /\
    guardiansStorage st' = guardiansStorage st /\
    paymentsStorage st' = paymentsStorage st /\
    ownerStorage st' = ownerStorage st /\
    feeStructureStorage st' = feeStructureStorage st.
Proof.
  intros Hchild Hrun. exists (spread child body).
  assert (Hst : st' = set_children
                        (storage_insert (JString id) (spread child body)) st /\
                out = Sent 200 (Entity (spread child body))).
  { destruct srv; simpl in Hrun;
      [unfold IndexTs.putChildren in Hrun|unfold Refactored.putChildren in Hrun];
      rewrite Hchild in Hrun; by simplify_eq. }
  destruct Hst as [-> ->]. simpl. unfold storage_get, storage_insert, spread.
  repeat split.
  - by rewrite lookup_insert_eq.
  - intros k v Hk. by apply lookup_union_Some_l.
  - intros k Hk. by apply lookup_union_r.
  - intros other Hne. apply lookup_insert_ne.
    intros Hkey. apply Hne. symmetry. by apply key_bytes_string.
Qed.

(** C10, as the code has it: an amount that is falsy is answered with
    "Missing required fields" whatever the store holds, and nothing is
    written; "Invalid amount" is answered only to an amount that is truthy
    and parses to [NaN] or to a number that is zero or less. *)
Theorem falsy_amount_is_a_missing_field (srv : Server) (st st' : State)
    (env : Env) (body : Obj) (out : Outcome) :
  postPayments srv st env body = (st', out) ->
  (truthy (field body "amount") = false ->
     st' = st /\ out = Sent 400 (Message "Missing required fields")) /\
  (out = Sent 400 (Message "Invalid amount") ->
     truthy (field body "amount") = true /\
     (isNaN (parseFloat (field body "amount")) = true \/
      js_le (parseFloat (field body "amount")) (Fin 0) = true)).
Proof.
  intros Hrun. split.
  - intros Ha. destruct srv; simpl in Hrun;
      [unfold IndexTs.postPayments in Hrun
      |unfold Refactored.postPayments in Hrun];
      rewrite Ha in Hrun; simpl in Hrun;
      rewrite orb_true_r in Hrun; simpl in Hrun; by simplify_eq.
  - intros ->. destruct srv; simpl in Hrun.
    + unfold IndexTs.postPayments in Hrun.
      destruct (truthy (field body "childIds")); simpl in Hrun; [|done].
      destruct (truthy (field body "amount")); simpl in Hrun; [|done].
      destruct (truthy (field body "guardianId")); simpl in Hrun; [|done].
      destruct (storage_get _ (guardiansStorage st)); [|done].
      destruct (isNaN _) eqn:Hnan; [by auto|].
      destruct (js_le _ _) eqn:Hle; [by auto|].
      simpl in Hrun. run_in Hrun; by simplify_eq.
    + unfold Refactored.postPayments in Hrun.
      destruct (truthy (field body "childIds")); simpl in Hrun; [|done].
      destruct (truthy (field body "amount")); simpl in Hrun; [|done].
      destruct (truthy (field body "guardianId")); simpl in Hrun; [|done].
      destruct (storage_get _ (guardiansStorage st)); [|done].
      destruct (storage_values _); [done|].
      destruct (isNaN _) eqn:Hnan; [by auto|].
      destruct (js_le _ _) eqn:Hle; [by auto|].
      simpl in Hrun. run_in Hrun; by simplify_eq.
Qed.
End Registration.

(** ** What holds of every state a server can be in *)

Section Invariants.
Context `{JsRuntime}.

Lemma store_payments_frame (payments : list Payment) (st : State) :
  childrenStorage (store_payments payments st) = childrenStorage st /\
  guardiansStorage (store_payments payments st) = guardiansStorage st /\
  ownerStorage (store_payments payments st) = ownerStorage st /\
  feeStructureStorage (store_payments payments st) = feeStructureStorage st.
Proof.
  unfold store_payments. revert st.
  induction payments as [|p payments IH]; intros st; simpl; [done|].
  destruct (IH (set_payments (storage_insert (JString (pay_id p)) p) st))
    as (-> & -> & -> & ->). done.
Qed.

Lemma postPayments_frame (srv : Server) (st : State) (env : Env) (body : Obj) :
  ownerStorage (postPayments srv st env body).1 = ownerStorage st /\
  feeStructureStorage (postPayments srv st env body).1 = feeStructureStorage st.
Proof.
  destruct (postPayments srv st env body) as [st' out] eqn:Hrun. simpl.
  destruct (allocated out) as [[ps bs]|] eqn:Hout.
  - destruct (allocation_inv _ _ _ _ _ _ _ _ Hrun Hout)
      as (_ & _ & _ & _ & _ & _ & _ & _ & _ & _ & _ & _ & _ & _ & ->).
    by destruct (store_payments_frame ps st) as (_ & _ & -> & ->).
  - by rewrite (postPayments_failure _ _ _ _ _ _ Hrun Hout).
Qed.

(** only [POST /fee-structure] writes to the fee structures *)
Lemma handle_fee_frame (srv : Server) (st : State) (env : Env) (req : Request) :
  (forall body, req <> PostFeeStructure body) ->
  feeStructureStorage (handle srv st env req).1 = feeStructureStorage st.
Proof.
  intros Hreq. destruct req as [body|body|body|body|body|id body]; simpl.
  - destruct srv; simpl;
      [unfold IndexTs.postOwner|unfold Refactored.postOwner];
      repeat case_match; done.
  - destruct srv; simpl;
      [unfold IndexTs.postChildren|unfold Refactored.postChildren];
      repeat case_match; done.
  - destruct srv; simpl;
      [unfold IndexTs.postGuardians|unfold Refactored.postGuardians];
      repeat case_match; done.
  - by destruct (Hreq body).
  - apply postPayments_frame.
  - destruct srv; simpl;
      [unfold IndexTs.putChildren|unfold Refactored.putChildren];
      repeat case_match; done.
Qed.

(** only [POST /owner] writes to the owners *)
Lemma handle_owner_frame (srv : Server) (st : State) (env : Env) (req : Request) :
  (forall body, req <> PostOwner body) ->
  ownerStorage (handle srv st env req).1 = ownerStorage st.
Proof.
  intros Hreq. destruct req as [body|body|body|body|body|id body]; simpl.
  - by destruct (Hreq body).
  - destruct srv; simpl;
      [unfold IndexTs.postChildren|unfold Refactored.postChildren];
      repeat case_match; done.
  - destruct srv; simpl;
      [unfold IndexTs.postGuardians|unfold Refactored.postGuardians];
      repeat case_match; done.
  - destruct srv; simpl;
      [unfold IndexTs.postFeeStructure|unfold Refactored.postFeeStructure];
      repeat case_match; done.
  - apply postPayments_frame.
  - destruct srv; simpl;
      [unfold IndexTs.putChildren|unfold Refactored.putChildren];
      repeat case_match; done.
Qed.

Lemma run_reachable (srv : Server) (reqs : list (Env * Request)) (st : State) :
  reachable srv st -> reachable srv (run srv reqs st).
Proof.
  unfold run. revert st.
  induction reqs as [|[env req] reqs IH]; intros st Hst; simpl; [done|].
  apply IH. by constructor.
Qed.

(** in every state either server can be in, every fee structure has a
    truthy amount *)
Lemma reachable_fee_amounts_truthy (srv : Server) (st : State) :
  reachable srv st ->
  map_Forall (fun _ fs => truthy (field fs "amount") = true)
             (feeStructureStorage st).
Proof.
  induction 1 as [|st env req Hst IH]; [apply map_Forall_empty|].
  destruct req as [body|body|body|body|body|id body];
    try (rewrite handle_fee_frame; done).
  simpl. destruct (postFeeStructure srv st env body) as [st' out] eqn:Hrun.
  destruct (postFeeStructure_inv _ _ _ _ _ _ Hrun)
    as [[_ ->]|(fs & _ & -> & Hamount & Htruthy)]; [done|].
  simpl. unfold storage_insert. apply map_Forall_insert_2; [|done].
  by rewrite Hamount.
Qed.

(** what the refactored [POST /owner] does: nothing, or it stores an owner
    in a store that had none *)
Lemma refactored_postOwner_inv (st : State) (env : Env) (body : Obj) :
  (Refactored.postOwner st env body).1 = st \/
  ownerStorage st = ∅ /\
  exists key owner,
    (Refactored.postOwner st env body).1 = set_owner (fun m => <[key:=owner]> m) st.
Proof.
  unfold Refactored.postOwner.
  destruct (negb (truthy (field body "name")) || _ || _); [by left|].
  destruct (negb (Refactored.validatePhoneNumber _)); [by left|].
  destruct (negb (Refactored.validateEmail _)); [by left|].
  destruct (storage_values (ownerStorage st)) as [|o os] eqn:Hvalues;
    [|by left].
  right. split; [by apply storage_values_nil|]. simpl. by eexists _, _.
Qed.

(** in every state the refactored server can be in, there is at most one
    owner *)
Lemma refactored_at_most_one_owner (st : State) :
  reachable refactored st -> (size (ownerStorage st) <= 1)%nat.
Proof.
  induction 1 as [|st env req Hst IH];
    [simpl; rewrite map_size_empty; auto|].
  destruct req as [body|body|body|body|body|id body];
    try (rewrite handle_owner_frame; done).
  simpl. destruct (refactored_postOwner_inv st env body)
    as [->|(Hempty & key & owner & ->)]; [done|].
  simpl. rewrite Hempty. by rewrite insert_empty, map_size_singleton.
Qed.
End Invariants.

(** ** Registration, handler by handler *)

Section Registered.
Context `{JsRuntime}.

(** what a registration does: it answers with an error and writes nothing,
    or it files the entity it answers with under the entity's id *)
Lemma post_inv (srv : Server) (kind : Kind) (st st' : State) (env : Env)
    (body : Obj) (out : Outcome) :
  post srv kind st env body = (st', out) ->
  (created out = None /\ is_error out = true /\ st' = st) \/
  (exists e,
     created out = Some e /\ is_error out = false /\
     st' = set_storage_of kind (storage_insert (field e "id") e) st /\
     (srv = refactored -> field e "id" = JString (uuidv4 env 0)) /\
     (srv = index_ts ->
      forall k v, body !! k = Some v -> e !! k = Some v)).
Proof.
  intros Hrun.
  destruct srv, kind; simpl in Hrun;
    [unfold IndexTs.postOwner in Hrun
    |unfold IndexTs.postChildren in Hrun
    |unfold IndexTs.postGuardians in Hrun
    |unfold IndexTs.postFeeStructure in Hrun
    |unfold Refactored.postOwner in Hrun
    |unfold Refactored.postChildren in Hrun
    |unfold Refactored.postGuardians in Hrun
    |unfold Refactored.postFeeStructure in Hrun];
    repeat (match type of Hrun with
            | context [if ?b then _ else _] => destruct b eqn:?
            | context [match find ?f ?l with _ => _ end] => destruct (find f l) eqn:?
            | context [match storage_get ?k ?m with _ => _ end] =>
                destruct (storage_get k m) eqn:?
            end);
    injection Hrun as <- <-;
    try (left; split_and!; reflexivity);
    right; eexists; split_and!; try reflexivity; try discriminate;
    intros _ k v Hk; unfold spread; by apply lookup_union_Some_l.
Qed.
End Registered.

(** ** What every request leaves alone *)

Section Frames.
Context `{JsRuntime}.

Lemma store_payments_cons (p : Payment) (payments : list Payment) (st : State) :
  store_payments (p :: payments) st =
  store_payments payments
    (set_payments (storage_insert (JString (pay_id p)) p) st).
Proof. done. Qed.

Lemma postPayments_inv (srv : Server) (st st' : State) (env : Env) (body : Obj)
    (out : Outcome) :
  postPayments srv st env body = (st', out) ->
  (allocated out = None /\ is_error out = true /\ st' = st) \/
  (exists ps bs,
     allocated out = Some (ps, bs) /\ is_error out = false /\
     st' = store_payments ps st /\
     map pay_id ps = map (uuidv4 env) (seq 0 (length ps)) /\
     Forall (fun p => pay_status p = PAID) ps).
Proof.
  intros Hrun. destruct (allocated out) as [[ps bs]|] eqn:Hout.
  - right. exists ps, bs.
    destruct (allocation_inv _ _ _ _ _ _ _ _ Hrun Hout)
      as (ids & fs & children & r & s & _ & _ & _ & _ & _ & _ & _ & _ & Hp & ->).
    apply payment_pass in Hp as (_ & Hlen & Hps).
    split; [done|]. split.
    { destruct out as [code pl|]; [|done]. unfold allocated in Hout.
      destruct srv; simpl in Hrun;
        [unfold IndexTs.postPayments in Hrun
        |unfold Refactored.postPayments in Hrun];
        run_in Hrun; by simplify_eq. }
    split; [done|]. split.
    + apply list_eq. intros i. rewrite !list_lookup_fmap.
      destruct (decide (i < length ps)%nat) as [Hi|Hi].
      * destruct (lookup_lt_is_Some_2 children i) as [child Hchild];
          [by rewrite <- Hlen|].
        rewrite (Hps i child Hchild). rewrite lookup_seq_lt by done. done.
      * rewrite lookup_ge_None_2 by lia.
        rewrite (lookup_ge_None_2 (seq 0 (length ps))); [done|].
        rewrite length_seq. lia.
    + apply Forall_lookup. intros i p Hi.
      destruct (lookup_lt_is_Some_2 children i) as [child Hchild].
      { rewrite <- Hlen. by eapply lookup_lt_Some. }
      rewrite (Hps i child Hchild) in Hi. by injection Hi as <-.
  - left. split; [done|]. split; [|by eapply postPayments_failure].
    destruct srv; simpl in Hrun;
      [unfold IndexTs.postPayments in Hrun
      |unfold Refactored.postPayments in Hrun];
      run_in Hrun; by simplify_eq.
Qed.

Lemma putChildren_inv (srv : Server) (st : State) (id : string) (body : Obj) :
  (storage_get (JString id) (childrenStorage st) = None /\
   (putChildren srv st id body).1 = st /\
   is_error (putChildren srv st id body).2 = true) \/
  (exists child,
     storage_get (JString id) (childrenStorage st) = Some child /\
     putChildren srv st id body =
       (set_children (storage_insert (JString id) (spread child body)) st,
        Sent 200 (Entity (spread child body)))).
Proof.
  destruct (storage_get (JString id) (childrenStorage st)) as [child|] eqn:Hget.
  - right. exists child. split; [done|].
    destruct srv; simpl;
      [unfold IndexTs.putChildren|unfold Refactored.putChildren];
      by rewrite Hget.
  - left. split; [done|].
    destruct srv; simpl;
      [unfold IndexTs.putChildren|unfold Refactored.putChildren];
      by rewrite Hget.
Qed.

(** X1: a request that is answered with a status of 400 or more, or that
    throws, writes nothing to any store. *)
Theorem errors_write_nothing (srv : Server) (st st' : State) (env : Env)
    (req : Request) (out : Outcome) :
  handle srv st env req = (st', out) ->
  is_error out = true ->
  st' = st.
Proof.
  intros Hrun Herr.
  assert (Hpost : forall kind body,
            post srv kind st env body = (st', out) -> st' = st).
  { intros kind body Hk.
    destruct (post_inv _ _ _ _ _ _ _ Hk)
      as [(_ & _ & ->)|(e & _ & Hok & _)]; [done|congruence]. }
  destruct req as [body|body|body|body|body|id body]; simpl in Hrun.
  - by apply (Hpost an_owner body).
  - by apply (Hpost a_child body).
  - by apply (Hpost a_guardian body).
  - by apply (Hpost a_fee_structure body).
  - destruct (postPayments_inv _ _ _ _ _ _ Hrun)
      as [(_ & _ & ->)|(ps & bs & _ & Hok & _)]; [done|congruence].
  - destruct (putChildren_inv srv st id body)
      as [(_ & Hst & _)|(child & _ & Hput)].
    + by rewrite Hrun in Hst.
    + rewrite Hrun in Hput. by simplify_eq.
Qed.

Lemma handle_frame (srv : Server) (st : State) (env : Env) (req : Request) :
  let st' := (handle srv st env req).1 in
  (childrenStorage st' = childrenStorage st \/
   exists body, req = PostChildren body \/ exists id, req = PutChildren id body) /\
  (guardiansStorage st' = guardiansStorage st \/
   exists body, req = PostGuardians body) /\
  (paymentsStorage st' = paymentsStorage st \/
   exists body, req = PostPayments body) /\
  (ownerStorage st' = ownerStorage st \/
   exists body, req = PostOwner body) /\
  (feeStructureStorage st' = feeStructureStorage st \/
   exists body, req = PostFeeStructure body).
Proof.
  assert (Hpost : forall kind body,
            (post srv kind st env body).1 = st \/
            exists f, (post srv kind st env body).1 = set_storage_of kind f st).
  { intros kind body.
    destruct (post srv kind st env body) as [st' out] eqn:Hk.
    destruct (post_inv _ _ _ _ _ _ _ Hk)
      as [(_ & _ & ->)|(e & _ & _ & -> & _)]; [by left|right; by eexists]. }
  destruct req as [body|body|body|body|body|id body]; simpl.
  - destruct (Hpost an_owner body) as [Heq|[f Heq]]; simpl in Heq;
      rewrite Heq; split_and!; eauto.
  - destruct (Hpost a_child body) as [Heq|[f Heq]]; simpl in Heq;
      rewrite Heq; split_and!; eauto.
  - destruct (Hpost a_guardian body) as [Heq|[f Heq]]; simpl in Heq;
      rewrite Heq; split_and!; eauto.
  - destruct (Hpost a_fee_structure body) as [Heq|[f Heq]]; simpl in Heq;
      rewrite Heq; split_and!; eauto.
  - destruct (postPayments srv st env body) as [st' out] eqn:Hrun.
    destruct (postPayments_inv _ _ _ _ _ _ Hrun)
      as [(_ & _ & ->)|(ps & bs & _ & _ & -> & _)]; simpl;
      [split_and!; eauto|].
    destruct (store_payments_frame ps st) as (-> & -> & -> & ->).
    split_and!; eauto.
  - destruct (putChildren_inv srv st id body)
      as [(_ & -> & _)|(child & _ & ->)]; simpl; split_and!; eauto.
Qed.

(** X2: every request writes to one store at most: a registration to the
    store of its kind, an update to the children, an allocation to the
    payments. *)
Theorem handle_writes_one_store (srv : Server) (st : State) (env : Env)
    (req : Request) :
  let st' := (handle srv st env req).1 in
  (childrenStorage st' = childrenStorage st \/
   exists body, req = PostChildren body \/ exists id, req = PutChildren id body) /\
  (guardiansStorage st' = guardiansStorage st \/
   exists body, req = PostGuardians body) /\
  (paymentsStorage st' = paymentsStorage st \/
   exists body, req = PostPayments body) /\
  (ownerStorage st' = ownerStorage st \/
   exists body, req = PostOwner body) /\
  (feeStructureStorage st' = feeStructureStorage st \/
   exists body, req = PostFeeStructure body).
Proof. apply handle_frame. Qed.
End Frames.

(** ** Owners and guardians *)

Section Contacts.
Context `{JsRuntime}.

Lemma three_truthy (a b c : JsValue) :
  negb (truthy a) || negb (truthy b) || negb (truthy c) = false ->
  truthy a = true /\ truthy b = true /\ truthy c = true.
Proof. destruct (truthy a), (truthy b), (truthy c); simpl; by intros. Qed.

(** what the registration of an owner or of a guardian has checked when it
    succeeds *)
Lemma contact_inv (srv : Server) (kind : Kind) (st st' : State) (env : Env)
    (body : Obj) (out : Outcome) (e : Obj) :
  kind = an_owner \/ kind = a_guardian ->
  post srv kind st env body = (st', out) ->
  created out = Some e ->
  (truthy (field e "name") = true /\
   phonePattern (ToString (field e "phoneNumber")) = true /\
   emailPattern (ToString (field e "email")) = true) /\
  field e "email" = field body "email" /\
  (kind = a_guardian \/ srv = index_ts ->
   forall g, In g (storage_values (storage_of kind st)) ->
     strict_eq (field g "email") (field e "email") = false) /\
  (kind = an_owner -> srv = refactored -> ownerStorage st = ∅) /\
  (kind = a_guardian -> srv = refactored -> field e "childrenIds" = JArray []).
Proof.
  intros Hkind Hrun Hout.
  destruct srv, kind; try (by destruct Hkind); simpl in Hrun.
  - unfold IndexTs.postOwner in Hrun.
    destruct (negb (truthy (field body "name")) || _ || _) eqn:Hfields;
      [by simplify_eq|].
    apply three_truthy in Hfields as (Hn & He & Hp).
    destruct (negb (phonePattern _)) eqn:Hphone; [by simplify_eq|].
    destruct (negb (emailPattern _)) eqn:Hemail; [by simplify_eq|].
    destruct (find _ _) eqn:Hfind; [by simplify_eq|].
    apply negb_false_iff in Hphone, Hemail.
    simplify_eq. simpl in Hout. simplify_eq.
    rewrite !field_spread_over by done. split_and!; try done.
    intros _ g Hg. by apply (find_none _ _ Hfind).
  - unfold IndexTs.postGuardians in Hrun.
    destruct (negb (truthy (field body "name")) || _ || _) eqn:Hfields;
      [by simplify_eq|].
    apply three_truthy in Hfields as (Hn & He & Hp).
    destruct (negb (phonePattern _)) eqn:Hphone; [by simplify_eq|].
    destruct (negb (emailPattern _)) eqn:Hemail; [by simplify_eq|].
    destruct (find _ _) eqn:Hfind; [by simplify_eq|].
    apply negb_false_iff in Hphone, Hemail.
    simplify_eq. simpl in Hout. simplify_eq.
    rewrite !field_spread_over by done. split_and!; try done.
    intros _ g Hg. by apply (find_none _ _ Hfind).
  - unfold Refactored.postOwner in Hrun.
    destruct (negb (truthy (field body "name")) || _ || _) eqn:Hfields;
      [by simplify_eq|].
    apply three_truthy in Hfields as (Hn & He & Hp).
    destruct (negb (Refactored.validatePhoneNumber _)) eqn:Hphone;
      [by simplify_eq|].
    destruct (negb (Refactored.validateEmail _)) eqn:Hemail; [by simplify_eq|].
    destruct (storage_values (ownerStorage st)) as [|o os] eqn:Hvalues;
      simpl in Hrun; [|by simplify_eq].
    apply negb_false_iff in Hphone, Hemail.
    simplify_eq. simpl in Hout. simplify_eq.
    split_and!; try done.
    + intros [|]; done.
    + intros _ _. by apply storage_values_nil.
  - unfold Refactored.postGuardians in Hrun.
    destruct (negb (truthy (field body "name")) || _ || _) eqn:Hfields;
      [by simplify_eq|].
    apply three_truthy in Hfields as (Hn & He & Hp).
    destruct (negb (Refactored.validatePhoneNumber _)) eqn:Hphone;
      [by simplify_eq|].
    destruct (negb (Refactored.validateEmail _)) eqn:Hemail; [by simplify_eq|].
    destruct (find _ _) eqn:Hfind; [by simplify_eq|].
    apply negb_false_iff in Hphone, Hemail.
    simplify_eq. simpl in Hout. simplify_eq.
    split_and!; try done.
    intros _ g Hg. by apply (find_none _ _ Hfind).
Qed.
End Contacts.

(** ** What holds of the stores of every state a server can be in *)

Section Stores.
Context `{JsRuntime}.

Lemma storage_of_set (kind : Kind) (f : gmap string Obj -> gmap string Obj)
    (st : State) :
  storage_of kind (set_storage_of kind f st) = f (storage_of kind st).
Proof. by destruct kind. Qed.

(** owners, guardians and fee structures are written by their registration
    only: what an empty store has and every registration keeps, holds in
    every state *)
Lemma kind_store_invariant (srv : Server) (kind : Kind)
    (Q : gmap string Obj -> Prop) :
  kind <> a_child ->
  Q ∅ ->
  (forall st env body st' out e,
     reachable srv st -> Q (storage_of kind st) ->
     post srv kind st env body = (st', out) -> created out = Some e ->
     Q (<[key_bytes (field e "id") := e]> (storage_of kind st))) ->
  forall st, reachable srv st -> Q (storage_of kind st).
Proof.
  intros Hkind Hempty Hstep st Hst.
  induction Hst as [|st env req Hst IH]; [by destruct kind|].
  assert (Hpost : forall body,
            handle srv st env req = post srv kind st env body ->
            Q (storage_of kind (handle srv st env req).1)).
  { intros body ->.
    destruct (post srv kind st env body) as [st' out] eqn:Hrun.
    destruct (post_inv _ _ _ _ _ _ _ Hrun)
      as [(_ & _ & ->)|(e & Hout & _ & -> & _)]; [done|].
    simpl. rewrite storage_of_set. by eapply Hstep. }
  destruct (handle_frame srv st env req)
    as (_ & Hg & _ & Ho & Hf).
  destruct kind; [|done| |]; simpl in *.
  - destruct Ho as [->|[body ->]]; [done|]. by apply (Hpost body).
  - destruct Hg as [->|[body ->]]; [done|]. by apply (Hpost body).
  - destruct Hf as [->|[body ->]]; [done|]. by apply (Hpost body).
Qed.

(** X3: in every state a server can be in, an owner, a guardian and a fee
    structure are filed under their own id. *)
Theorem entities_are_filed_under_their_id (srv : Server) (kind : Kind)
    (st : State) (key : string) (e : Obj) :
  reachable srv st ->
  kind <> a_child ->
  storage_of kind st !! key = Some e ->
  key = key_bytes (field e "id").
Proof.
  intros Hst Hkind Hkey.
  apply (kind_store_invariant srv kind
           (map_Forall (fun k e => k = key_bytes (field e "id"))) Hkind)
    with (st := st) in Hst; [by apply Hst|apply map_Forall_empty|].
  intros st0 env body st' out e0 _ IH _ _. by apply map_Forall_insert_2.
Qed.

(** X4: in every state a server can be in, every owner and every guardian
    has a truthy name, a phone number that prints as ten digits and an
    email that prints as an address the pattern accepts. *)
Theorem contacts_are_validated (srv : Server) (kind : Kind) (st : State)
    (key : string) (e : Obj) :
  reachable srv st ->
  kind = an_owner \/ kind = a_guardian ->
  storage_of kind st !! key = Some e ->
  truthy (field e "name") = true /\
  phonePattern (ToString (field e "phoneNumber")) = true /\
  emailPattern (ToString (field e "email")) = true.
Proof.
  intros Hst Hkind Hkey.
  assert (Hne : kind <> a_child) by (by destruct Hkind as [->| ->]).
  apply (kind_store_invariant srv kind
           (map_Forall (fun _ e =>
              truthy (field e "name") = true /\
              phonePattern (ToString (field e "phoneNumber")) = true /\
              emailPattern (ToString (field e "email")) = true)) Hne)
    with (st := st) in Hst; [by apply (Hst key)|apply map_Forall_empty|].
  intros st0 env body st' out e0 _ IH Hrun Hout.
  apply map_Forall_insert_2; [|done].
  by destruct (contact_inv _ _ _ _ _ _ _ _ Hkind Hrun Hout) as (Hvalid & _).
Qed.

Lemma lookup_storage_values {V : Type} (m : gmap string V) (k : string) (v : V) :
  m !! k = Some v -> In v (storage_values m).
Proof.
  intros Hk. unfold storage_values. apply list_elem_of_In.
  apply list_elem_of_fmap. exists (k, v). split; [done|].
  by apply elem_of_map_to_list.
Qed.

(** X5: in every state a server can be in, no two guardians have the same
    string as their email. *)
Theorem guardian_emails_are_unique (srv : Server) (st : State)
    (k1 k2 : string) (g1 g2 : Obj) (email : string) :
  reachable srv st ->
  guardiansStorage st !! k1 = Some g1 ->
  guardiansStorage st !! k2 = Some g2 ->
  field g1 "email" = JString email ->
  field g2 "email" = JString email ->
  k1 = k2.
Proof.
  intros Hst. revert k1 k2 g1 g2 email.
  change (guardiansStorage st) with (storage_of a_guardian st).
  apply (kind_store_invariant srv a_guardian
           (fun m => forall k1 k2 g1 g2 email,
              m !! k1 = Some g1 -> m !! k2 = Some g2 ->
              field g1 "email" = JString email ->
              field g2 "email" = JString email -> k1 = k2));
    [done|by intros ?????; rewrite lookup_empty| |done].
  intros st0 env body st' out e _ IH Hrun Hout k1 k2 g1 g2 email.
  destruct (contact_inv _ a_guardian _ _ _ _ _ _ (or_intror eq_refl) Hrun Hout)
    as (_ & _ & Hfresh & _).
  specialize (Hfresh (or_introl eq_refl)). simpl in Hfresh.
  assert (Hclash : forall k g,
            guardiansStorage st0 !! k = Some g ->
            field g "email" = JString email ->
            field e "email" = JString email -> False).
  { intros k g Hk Hg He.
    pose proof (Hfresh g (lookup_storage_values _ _ _ Hk)) as Hneq.
    rewrite Hg, He in Hneq. simpl in Hneq. by rewrite String.eqb_refl in Hneq. }
  rewrite !lookup_insert. repeat case_decide; intros; simplify_eq; try done.
  - exfalso. by eapply Hclash.
  - exfalso. by eapply Hclash.
  - by eapply (IH k1 k2).
Qed.

(** X6: in every state the refactored server can be in, the list of child
    ids of every guardian is empty: nothing ever adds to it. *)
Theorem refactored_guardians_list_no_child (st : State) (key : string)
    (guardian : Obj) :
  reachable refactored st ->
  guardiansStorage st !! key = Some guardian ->
  field guardian "childrenIds" = JArray [].
Proof.
  intros Hst Hkey.
  apply (kind_store_invariant refactored a_guardian
           (map_Forall (fun _ g => field g "childrenIds" = JArray [])))
    with (st := st) in Hst; [by apply (Hst key)|done|apply map_Forall_empty|].
  intros st0 env body st' out e _ IH Hrun Hout.
  apply map_Forall_insert_2; [|done].
  destruct (contact_inv _ a_guardian _ _ _ _ _ _ (or_intror eq_refl) Hrun Hout)
    as (_ & _ & _ & _ & Hlist). by apply Hlist.
Qed.

Lemma store_payments_Forall (P : string -> Payment -> Prop)
    (payments : list Payment) (st : State) :
  map_Forall P (paymentsStorage st) ->
  Forall (fun p => P (key_bytes (JString (pay_id p))) p) payments ->
  map_Forall P (paymentsStorage (store_payments payments st)).
Proof.
  revert st. induction payments as [|p payments IH]; intros st Hst Hps; [done|].
  rewrite store_payments_cons. inversion Hps as [|? ? Hp Hrest]; subst.
  apply IH; [|done]. simpl. by apply map_Forall_insert_2.
Qed.

(** X7: in every state a server can be in, every payment is filed under
    its own id and has the status PAID: no handler stores a payment that is
    PENDING or FAILED. *)
Theorem payments_are_paid (srv : Server) (st : State) (key : string)
    (p : Payment) :
  reachable srv st ->
  paymentsStorage st !! key = Some p ->
  key = key_bytes (JString (pay_id p)) /\ pay_status p = PAID.
Proof.
  intros Hst. revert key p.
  change (map_Forall (fun key p => key = key_bytes (JString (pay_id p)) /\
                                   pay_status p = PAID) (paymentsStorage st)).
  induction Hst as [|st env req Hst IH]; [apply map_Forall_empty|].
  destruct (handle_frame srv st env req)
    as (_ & _ & [->|[body ->]] & _); [done|].
  simpl. destruct (postPayments srv st env body) as [st' out] eqn:Hrun.
  destruct (postPayments_inv _ _ _ _ _ _ Hrun)
    as [(_ & _ & ->)|(ps & bs & _ & _ & -> & _ & Hpaid)]; [done|].
  simpl. apply store_payments_Forall; [done|].
  eapply Forall_impl; [exact Hpaid|]. by intros p Hp.
Qed.
End Stores.

(** ** Writing, then reading *)

Section RoundTrips.
Context `{JsRuntime}.

Lemma store_payments_other (payments : list Payment) (st : State) (key : string) :
  (forall p, p ∈ payments -> key <> key_bytes (JString (pay_id p))) ->
  paymentsStorage (store_payments payments st) !! key = paymentsStorage st !! key.
Proof.
  revert st. induction payments as [|p payments IH]; intros st Hkey; [done|].
  rewrite store_payments_cons, IH.
  - simpl. unfold storage_insert. apply lookup_insert_ne.
    intros Heq. by apply (Hkey p); [left|].
  - intros q Hq. apply Hkey. by right.
Qed.

Lemma store_payments_stored (payments : list Payment) (st : State) (p : Payment) :
  NoDup (map pay_id payments) ->
  p ∈ payments ->
  paymentsStorage (store_payments payments st) !! key_bytes (JString (pay_id p))
  = Some p.
Proof.
  revert st. induction payments as [|p0 payments IH]; intros st Hdup Hp.
  - by apply elem_of_nil in Hp.
  - simpl in Hdup. apply NoDup_cons in Hdup as [Hfresh Hdup].
    rewrite store_payments_cons.
    apply elem_of_cons in Hp as [->|Hp]; [|by apply IH].
    rewrite store_payments_other.
    + simpl. unfold storage_insert. by rewrite lookup_insert_eq.
    + intros q Hq Hkey. apply Hfresh. apply key_bytes_string in Hkey.
      rewrite Hkey. apply list_elem_of_In, in_map. by apply list_elem_of_In.
Qed.

(** X8: when the uuids a successful allocation draws are pairwise
    distinct, every payment of the answer is stored under its id and is
    listed by [GET /payments]; the payments stored under other keys stay
    as they were. *)
Theorem allocated_payments_are_stored (srv : Server) (st st' : State)
    (env : Env) (body : Obj) (out : Outcome) (ps : list Payment)
    (bs : list Balance) :
  postPayments srv st env body = (st', out) ->
  allocated out = Some (ps, bs) ->
  NoDup (map (uuidv4 env) (seq 0 (length ps))) ->
  (forall p, p ∈ ps ->
     storage_get (JString (pay_id p)) (paymentsStorage st') = Some p /\
     In p (getPayments srv st')) /\
  (forall key,
     (forall p, p ∈ ps -> key <> key_bytes (JString (pay_id p))) ->
     paymentsStorage st' !! key = paymentsStorage st !! key).
Proof.
  intros Hrun Hout Hdup.
  destruct (postPayments_inv _ _ _ _ _ _ Hrun)
    as [(Hnone & _)|(ps' & bs' & Hsome & _ & -> & Hids & _)]; [congruence|].
  rewrite Hout in Hsome. injection Hsome as <- <-.
  rewrite <- Hids in Hdup. split.
  - intros p Hp.
    assert (Hget : storage_get (JString (pay_id p))
                     (paymentsStorage (store_payments ps st)) = Some p)
      by (by apply store_payments_stored).
    split; [done|].
    destruct srv; simpl; by eapply lookup_storage_values.
  - intros key Hkey. by apply store_payments_other.
Qed.

(** X9: the entity a registration answers with is served by the GET of its
    kind under the entity's id, and is listed by [GET /children] or
    [GET /guardians]; in the refactored server that id is the uuid drawn. *)
Theorem created_entity_is_served (srv : Server) (kind : Kind) (st st' : State)
    (env : Env) (body : Obj) (out : Outcome) (e : Obj) :
  post srv kind st env body = (st', out) ->
  created out = Some e ->
  (srv = refactored -> field e "id" = JString (uuidv4 env 0)) /\
  (forall id, field e "id" = JString id ->
     getById srv kind st' id = Sent 200 (Entity e)) /\
  (kind = a_child -> In e (getChildren srv st')) /\
  (kind = a_guardian -> In e (getGuardians srv st')).
Proof.
  intros Hrun Hout.
  destruct (post_inv _ _ _ _ _ _ _ Hrun)
    as [(Hnone & _)|(e' & Hsome & _ & -> & Hid & _)]; [congruence|].
  rewrite Hout in Hsome. injection Hsome as <-.
  assert (Hget : storage_of kind
                   (set_storage_of kind (storage_insert (field e "id") e) st)
                   !! key_bytes (field e "id") = Some e).
  { rewrite storage_of_set. unfold storage_insert. by rewrite lookup_insert_eq. }
  split; [done|]. split; [|split].
  - intros id Heq. clear Hget.
    destruct srv, kind; simpl;
      [unfold IndexTs.getOwner|unfold IndexTs.getChildrenById
      |unfold IndexTs.getGuardiansById|unfold IndexTs.getFeeStructure
      |unfold Refactored.getOwner|unfold Refactored.getChildrenById
      |unfold Refactored.getGuardiansById|unfold Refactored.getFeeStructure];
      unfold storage_get, storage_insert; simpl;
      by rewrite Heq, lookup_insert_eq.
  - intros ->. destruct srv; simpl in *; by eapply lookup_storage_values.
  - intros ->. destruct srv; simpl in *; by eapply lookup_storage_values.
Qed.

(** X10: a request the server of [src/index.ts] registers is filed under
    the id of its body when the body has one, whatever uuid was drawn, and
    the entity stored carries every field of the body. *)
Theorem index_ts_takes_the_id_of_the_body (kind : Kind) (st st' : State)
    (env : Env) (body : Obj) (out : Outcome) (e : Obj) (id : JsValue) :
  post index_ts kind st env body = (st', out) ->
  created out = Some e ->
  body !! "id" = Some id ->
  field e "id" = id /\
  storage_of kind st' = <[key_bytes id := e]> (storage_of kind st) /\
  (forall k v, body !! k = Some v -> e !! k = Some v).
Proof.
  intros Hrun Hout Hid.
  destruct (post_inv _ _ _ _ _ _ _ Hrun)
    as [(Hnone & _)|(e' & Hsome & _ & -> & _ & Hbody)]; [congruence|].
  rewrite Hout in Hsome. injection Hsome as <-.
  specialize (Hbody eq_refl).
  assert (Hfield : field e "id" = id).
  { unfold field. by rewrite (Hbody "id" id Hid). }
  split; [done|]. split; [|done].
  rewrite storage_of_set. unfold storage_insert. by rewrite Hfield.
Qed.

(** X11: two updates of a child in a row do what one update with the two
    bodies merged does, the later body winning; so an update repeated is
    the update done once. *)
Theorem updates_compose (srv : Server) (st : State) (id : string)
    (b1 b2 : Obj) :
  putChildren srv (putChildren srv st id b1).1 id b2 =
    putChildren srv st id (spread b1 b2) /\
  putChildren srv (putChildren srv st id b1).1 id b1 = putChildren srv st id b1.
Proof.
  assert (Hcompose : forall b2,
            putChildren srv (putChildren srv st id b1).1 id b2 =
            putChildren srv st id (spread b1 b2)).
  { intros b. destruct (putChildren_inv srv st id b1)
      as [(Hnone & Hst & _)|(child & Hchild & Hput)].
    - rewrite Hst.
      destruct (putChildren_inv srv st id b)
        as [(_ & Hst1 & Herr)|(child & Hchild & _)]; [|congruence].
      destruct (putChildren_inv srv st id (spread b1 b))
        as [(_ & Hst2 & _)|(child & Hchild & _)]; [|congruence].
      destruct srv; simpl;
        [unfold IndexTs.putChildren|unfold Refactored.putChildren];
        by rewrite Hnone.
    - rewrite Hput. simpl.
      destruct (putChildren_inv srv st id (spread b1 b))
        as [(Hnone & _)|(child' & Hchild' & ->)]; [congruence|].
      rewrite Hchild in Hchild'. injection Hchild' as <-.
      set (st1 := set_children _ st).
      assert (Hget : storage_get (JString id) (childrenStorage st1)
                     = Some (spread child b1)).
      { unfold st1, storage_get, storage_insert. simpl.
        by rewrite lookup_insert_eq. }
      destruct (putChildren_inv srv st1 id b)
        as [(Hnone & _)|(child' & Hchild' & ->)]; [congruence|].
      rewrite Hget in Hchild'. injection Hchild' as <-.
      unfold st1, set_children, storage_insert, spread. simpl.
      rewrite insert_insert_eq. by rewrite (assoc_L (∪)). }
  split; [apply Hcompose|].
  rewrite Hcompose. unfold spread. by rewrite (idemp_L (∪)).
Qed.

(** X12: an update with an empty body leaves a stored child, and the whole
    store, as it was, and answers with the child. *)
Theorem empty_update_changes_nothing (srv : Server) (st : State) (id : string)
    (child : Obj) :
  storage_get (JString id) (childrenStorage st) = Some child ->
  putChildren srv st id ∅ = (st, Sent 200 (Entity child)).
Proof.
  intros Hchild.
  destruct (putChildren_inv srv st id ∅)
    as [(Hnone & _)|(child' & Hchild' & ->)]; [congruence|].
  rewrite Hchild in Hchild'. injection Hchild' as <-.
  unfold spread. rewrite (left_id_L ∅ (∪)). f_equal.
  unfold set_children, storage_insert. unfold storage_get in Hchild.
  rewrite (insert_id _ _ _ Hchild). by destruct st.
Qed.
End RoundTrips.

(** ** Edges of the allocation *)

Section Edges.
Context `{JsRuntime}.

Lemma field_insert_eq (o : Obj) (k : string) (v : JsValue) :
  field (<[k:=v]> o) k = v.
Proof. unfold field. by rewrite lookup_insert_eq. Qed.

Lemma field_insert_ne (o : Obj) (k k' : string) (v : JsValue) :
  k <> k' -> field (<[k:=v]> o) k' = field o k'.
Proof. intros Hne. unfold field. by rewrite lookup_insert_ne. Qed.

(** X13: an allocation only asks that the guardian exists: with any other
    guardian that exists the same request has the same answer and writes
    the same payments; whose children they are is never looked at. *)
Theorem allocation_ignores_the_guardian (srv : Server) (st : State) (env : Env)
    (body : Obj) (g1 g2 : JsValue) :
  truthy g1 = true -> truthy g2 = true ->
  is_Some (storage_get g1 (guardiansStorage st)) ->
  is_Some (storage_get g2 (guardiansStorage st)) ->
  postPayments srv st env (<["guardianId":=g1]> body) =
  postPayments srv st env (<["guardianId":=g2]> body).
Proof.
  intros Ht1 Ht2 [x1 Hx1] [x2 Hx2].
  destruct srv; simpl;
    [unfold IndexTs.postPayments|unfold Refactored.postPayments];
    rewrite !field_insert_eq, !field_insert_ne by done;
    by rewrite Ht1, Ht2, Hx1, Hx2.
Qed.

(** X14: a [childIds] that is truthy and not an array makes a request that
    is otherwise valid throw, and nothing is written. *)
Theorem childIds_that_are_no_array_throw (srv : Server) (st : State)
    (env : Env) (body : Obj) :
  truthy (field body "childIds") = true ->
  (forall ids, field body "childIds" <> JArray ids) ->
  truthy (field body "amount") = true ->
  truthy (field body "guardianId") = true ->
  is_Some (storage_get (field body "guardianId") (guardiansStorage st)) ->
  (srv = refactored -> storage_values (feeStructureStorage st) <> []) ->
  isNaN (parseFloat (field body "amount")) = false ->
  js_le (parseFloat (field body "amount")) (Fin 0) = false ->
  exists error, postPayments srv st env body = (st, Thrown error).
Proof.
  intros Hc Hids Ha Hg [guardian Hguard] Hfee Hnan Hle.
  destruct srv; simpl.
  - unfold IndexTs.postPayments. rewrite Hc, Ha, Hg, Hguard, Hnan, Hle. simpl.
    destruct (field body "childIds") as [| | | | |ids|] eqn:Hfield;
      try (by eexists). by destruct (Hids ids).
  - unfold Refactored.postPayments. rewrite Hc, Ha, Hg, Hguard. simpl.
    destruct (storage_values (feeStructureStorage st)) as [|fs fss];
      [by destruct Hfee|].
    rewrite Hnan, Hle. simpl.
    destruct (field body "childIds") as [| | | | |ids|] eqn:Hfield;
      try (by eexists). by destruct (Hids ids).
Qed.


(** X16: in a successful allocation over [n] children, the i-th payment is
    of the id the i-th uuid drawn, has the status PAID, and its amount is
    the share of position [n + i]: what the [n] balances left over, not
    what was requested, is what the payments are taken from. *)
Theorem payments_are_shares_of_the_leftover (srv : Server) (st st' : State)
    (env : Env) (body : Obj) (out : Outcome) (ps : list Payment)
    (bs : list Balance) (ids : list JsValue) (fs : Obj) :
  postPayments srv st env body = (st', out) ->
  allocated out = Some (ps, bs) ->
  field body "childIds" = JArray ids ->
  head (storage_values (feeStructureStorage st)) = Some fs ->
  length ps = length ids /\
  forall i p, ps !! i = Some p ->
    pay_amount p = applied (toNumber (field fs "amount"))
                           (parseFloat (field body "amount"))
                           (length ids + i) /\
    pay_status p = PAID /\ pay_id p = uuidv4 env i.
Proof. apply payments_apply_the_leftover. Qed.
End Edges.

(** ** The allocation in closed form *)

Lemma times_0 (f : Q) : (times 0 f == 0)%Q.
Proof. unfold times. change (inject_Z (Z.of_nat 0)) with 0%Q. ring. Qed.

Lemma times_S (n : nat) (f : Q) : (times (S n) f == times n f + f)%Q.
Proof.
  unfold times. rewrite Nat2Z.inj_succ. unfold Z.succ.
  rewrite inject_Z_plus. ring.
Qed.

Lemma times_le (i j : nat) (f : Q) :
  (0 <= f)%Q -> (i <= j)%nat -> (times i f <= times j f)%Q.
Proof.
  intros Hf Hij. induction Hij as [|j Hij IH]; [lra|].
  rewrite times_S. lra.
Qed.

Lemma times_add (i j : nat) (f : Q) :
  (times (i + j) f == times i f + times j f)%Q.
Proof.
  unfold times. rewrite Nat2Z.inj_add, inject_Z_plus. ring.
Qed.

(** what is left before the i-th child: the requested amount less [i] fees,
    and nothing once that is spent *)
Lemma remaining_closed (f a : Q) (i : nat) :
  (0 < f)%Q -> (0 <= a)%Q ->
  exists r, remaining (Fin f) (Fin a) i = Fin r /\
            ((times i f <= a /\ r == a - times i f) \/
             (a <= times i f /\ r == 0))%Q.
Proof.
  intros Hf Ha. induction i as [|i (r & Hr & Hcase)].
  - exists a. split; [done|]. left. pose proof (times_0 f). lra.
  - cbn [remaining]. rewrite Hr. simpl. eexists. split; [done|].
    pose proof (times_S i f) as HS. unfold Qminb.
    destruct (Qle_bool f r) eqn:Hfr; q_prop.
    + left. destruct Hcase as [[Hle Heq]|[Hle Heq]]; lra.
    + right. destruct Hcase as [[Hle Heq]|[Hle Heq]]; lra.
Qed.

Section ClosedForm.
Context `{JsRuntime}.

(** X17: with a fee and an amount that are whole numbers below 2^53, when
    the amount requested covers the fee of every child, every balance of
    a successful allocation is zero. *)
Theorem balances_are_settled_when_funded (srv : Server) (st st' : State)
    (env : Env) (body : Obj) (out : Outcome) (ps : list Payment)
    (bs : list Balance) (ids : list JsValue) (fs : Obj) (f a : Q) :
  postPayments srv st env body = (st', out) ->
  allocated out = Some (ps, bs) ->
  field body "childIds" = JArray ids ->
  head (storage_values (feeStructureStorage st)) = Some fs ->
  toNumber (field fs "amount") = Fin f ->
  (0 < f)%Q ->
  parseFloat (field body "amount") = Fin a ->
  safe_integer (Fin f) = true ->
  safe_integer (Fin a) = true ->
  (times (length ids) f <= a)%Q ->
  forall b, b ∈ bs -> js_num_eq (balance b) (Fin 0) = true.
Proof.
  intros Hrun Hout Hids Hfs Hfee Hf Hreq _ _ Hfunded b Hb.
  destruct (allocation_inv _ _ _ _ _ _ _ _ Hrun Hout)
    as (ids' & fs' & children & r & s & Hids' & Hfs' & _ & _ & _ & _
        & Hall & Hbal & _).
  rewrite Hids in Hids'. injection Hids' as <-.
  rewrite Hfs in Hfs'. injection Hfs' as <-.
  apply balance_pass in Hbal as (_ & Hlen & Hbs).
  pose proof (Forall2_length _ _ _ Hall) as Hn.
  apply list_elem_of_lookup in Hb as [i Hi].
  assert (Hlt : (i < length children)%nat).
  { rewrite <- Hlen. by eapply lookup_lt_Some. }
  destruct (lookup_lt_is_Some_2 children i Hlt) as [child Hchild].
  rewrite (Hbs i child Hchild) in Hi. injection Hi as <-. simpl.
  rewrite Hfee, Hreq. unfold owed, applied.
  assert (Ha : (0 <= a)%Q).
  { pose proof (times_le 0 (length ids) f ltac:(lra) ltac:(lia)) as Hle.
    pose proof (times_0 f). lra. }
  destruct (remaining_closed f a i Hf Ha) as (x & -> & Hcase).
  pose proof (times_le (S i) (length ids) f ltac:(lra) ltac:(lia)) as Hmono.
  pose proof (times_S i f) as HS.
  simpl. unfold Qminb, Qmaxb.
  destruct (Qle_bool f x) eqn:Hfx; q_prop;
    [|destruct Hcase as [[? ?]|[? ?]]; lra].
  destruct (Qle_bool 0 (f - f)) eqn:Hzero; q_prop; apply Qeq_bool_iff; lra.
Qed.

(** X18: with a fee and an amount that are whole numbers below 2^53, the
    payments of a successful allocation record what is requested beyond
    the fees of all the children: they are all zero when the amount does
    not exceed [n] fees, and all the whole fee from [2n] fees on. *)
Theorem payments_record_the_surplus (srv : Server) (st st' : State)
    (env : Env) (body : Obj) (out : Outcome) (ps : list Payment)
    (bs : list Balance) (ids : list JsValue) (fs : Obj) (f a : Q) :
  postPayments srv st env body = (st', out) ->
  allocated out = Some (ps, bs) ->
  field body "childIds" = JArray ids ->
  head (storage_values (feeStructureStorage st)) = Some fs ->
  toNumber (field fs "amount") = Fin f ->
  (0 < f)%Q ->
  parseFloat (field body "amount") = Fin a ->
  safe_integer (Fin f) = true ->
  safe_integer (Fin a) = true ->
  ((a <= times (length ids) f)%Q ->
   forall p, p ∈ ps -> js_num_eq (pay_amount p) (Fin 0) = true) /\
  ((times (length ids + length ids) f <= a)%Q ->
   forall p, p ∈ ps -> pay_amount p = Fin f).
Proof.
  intros Hrun Hout Hids Hfs Hfee Hf Hreq _ _.
  destruct (allocation_inv _ _ _ _ _ _ _ _ Hrun Hout)
    as (_ & _ & _ & _ & _ & _ & _ & _ & Hnan & Hle & _).
  rewrite Hreq in Hle. simpl in Hle.
  assert (Ha : (0 <= a)%Q) by (q_prop; lra).
  destruct (payments_apply_the_leftover _ _ _ _ _ _ _ _ _ _ Hrun Hout Hids Hfs)
    as [Hlen Hamount].
  assert (Hshare : forall p, p ∈ ps ->
            exists i x, (i < length ids)%nat /\
              pay_amount p = Math_min (Fin f) (Fin x) /\
              ((times (length ids + i) f <= a /\
                x == a - times (length ids + i) f) \/
               (a <= times (length ids + i) f /\ x == 0))%Q).
  { intros p Hp. apply list_elem_of_lookup in Hp as [i Hi].
    destruct (Hamount i p Hi) as (-> & _).
    rewrite Hfee, Hreq. unfold applied.
    destruct (remaining_closed f a (length ids + i) Hf Ha) as (x & -> & Hcase).
    exists i, x. split; [|done]. rewrite <- Hlen. by eapply lookup_lt_Some. }
  split.
  - intros Hshort p Hp.
    destruct (Hshare p Hp) as (i & x & Hi & -> & Hcase).
    pose proof (times_le (length ids) (length ids + i) f ltac:(lra) ltac:(lia))
      as Hmono.
    simpl. unfold Qminb.
    destruct (Qle_bool f x) eqn:Hfx; q_prop; apply Qeq_bool_iff;
      destruct Hcase as [[? ?]|[? ?]]; lra.
  - intros Hample p Hp.
    destruct (Hshare p Hp) as (i & x & Hi & -> & Hcase).
    pose proof (times_le (S (length ids + i)) (length ids + length ids) f
                  ltac:(lra) ltac:(lia)) as Hmono.
    pose proof (times_S (length ids + i) f) as HS.
    simpl. unfold Qminb.
    destruct (Qle_bool f x) eqn:Hfx; [done|].
    q_prop. destruct Hcase as [[? ?]|[? ?]]; lra.
Qed.
End ClosedForm.

(** ** The email pattern, read as a regular expression *)

Lemma all_plain_app (x y : string) :
  all_plain (x ++ y)%string = all_plain x && all_plain y.
Proof.
  induction x as [|c x IH]; simpl; [done|].
  rewrite IH. by rewrite andb_assoc.
Qed.

Lemma split_at_sign_app (l rest : string) :
  all_plain l = true ->
  split_at_sign (l ++ String "@" rest)%string = Some (l, rest).
Proof.
  induction l as [|c l IH]; simpl; [done|].
  intros Hplain. apply andb_true_iff in Hplain as [Hc Hl].
  unfold plain in Hc. apply andb_true_iff in Hc as [_ Hat].
  apply negb_true_iff in Hat. rewrite Hat. by rewrite (IH Hl).
Qed.

Lemma split_at_sign_eq (s x y : string) :
  split_at_sign s = Some (x, y) -> s = (x ++ String "@" y)%string.
Proof.
  revert x y. induction s as [|c s IH]; intros x y; simpl; [done|].
  destruct (Ascii.eqb c "@") eqn:Hc.
  - apply Ascii.eqb_eq in Hc. by intros [= <- <-]; subst.
  - destruct (split_at_sign s) as [[before after]|] eqn:Hs; [|done].
    intros [= <- <-]. by rewrite (IH before after eq_refl) at 1.
Qed.

Lemma dot_before_last_app (a b : string) :
  b <> ""%string -> dot_before_last (a ++ String "." b)%string = true.
Proof.
  intros Hb. induction a as [|c a IH].
  - simpl. by destruct b.
  - change (String c a ++ String "." b)%string
      with (String c (a ++ String "." b)%string).
    cbn [dot_before_last]. rewrite IH.
    destruct (a ++ String "." b)%string eqn:Ht; [by destruct a|].
    apply orb_true_r.
Qed.

Lemma dot_before_last_split (r : string) :
  dot_before_last r = true ->
  exists a b, r = (a ++ String "." b)%string /\ b <> ""%string.
Proof.
  induction r as [|c t IH]; [done|].
  cbn [dot_before_last]. destruct t as [|d t']; [done|].
  intros Hdot. apply orb_true_iff in Hdot as [Hc|Ht].
  - apply Ascii.eqb_eq in Hc as ->. by exists ""%string, (String d t').
  - destruct (IH Ht) as (a & b & -> & Hb).
    by exists (String c a), b.
Qed.

(** X19: a string of ASCII characters is accepted by the email pattern
    exactly when it is a local part, an at sign, a name, a dot and an
    ending, each of the three non-empty and without white space or at
    sign; the name and the ending may have dots of their own. *)
Theorem emailPattern_reads_as_the_regex (s : string) :
  ascii_only s = true ->
  (emailPattern s = true <->
   exists l a b,
     s = (l ++ "@" ++ a ++ "." ++ b)%string /\
     l <> ""%string /\ a <> ""%string /\ b <> ""%string /\
     all_plain l = true /\ all_plain a = true /\ all_plain b = true).
Proof.
  intros _. split.
  - unfold emailPattern.
    destruct (split_at_sign s) as [[x y]|] eqn:Hsplit; [|done].
    destruct x as [|c l]; [done|]. destruct y as [|d r]; [done|].
    intros Hok. apply andb_true_iff in Hok as [Hok Hdot].
    apply andb_true_iff in Hok as [Hl Hy].
    destruct (dot_before_last_split r Hdot) as (a & b & -> & Hb).
    change (String d (a ++ String "." b))%string
      with (String d a ++ String "." b)%string in Hy.
    rewrite all_plain_app in Hy. apply andb_true_iff in Hy as [Ha Hdb].
    simpl in Hdb.
    exists (String c l), (String d a), b.
    split; [by apply split_at_sign_eq in Hsplit|]. by split_and!.
  - intros (l & a & b & -> & Hl & Ha & Hb & Hpl & Hpa & Hpb).
    unfold emailPattern.
    change (l ++ "@" ++ a ++ "." ++ b)%string
      with (l ++ String "@" (a ++ String "." b))%string.
    rewrite (split_at_sign_app _ _ Hpl).
    destruct l as [|c l]; [done|]. destruct a as [|d a]; [done|].
    change (String d a ++ String "." b)%string
      with (String d (a ++ String "." b))%string.
    rewrite Hpl. rewrite (dot_before_last_app a b Hb).
    change (String d (a ++ String "." b))%string
      with (String d a ++ String "." b)%string.
    rewrite all_plain_app, Hpa. simpl. by rewrite Hpb.
Qed.

(** ** What no request does *)

Section Never.
Context `{JsRuntime}.

Lemma store_payments_dom (payments : list Payment) (st : State) :
  dom (paymentsStorage st) ⊆ dom (paymentsStorage (store_payments payments st)).
Proof.
  revert st. induction payments as [|p payments IH]; intros st; [done|].
  rewrite store_payments_cons. etrans; [|apply IH].
  simpl. unfold storage_insert. apply dom_insert_subseteq.
Qed.

(** X20: no request deletes anything: the keys of every store after a
    request include the keys it had before. *)
Theorem nothing_is_deleted (srv : Server) (st : State) (env : Env)
    (req : Request) :
  let st' := (handle srv st env req).1 in
  dom (childrenStorage st) ⊆ dom (childrenStorage st') /\
  dom (guardiansStorage st) ⊆ dom (guardiansStorage st') /\
  dom (paymentsStorage st) ⊆ dom (paymentsStorage st') /\
  dom (ownerStorage st) ⊆ dom (ownerStorage st') /\
  dom (feeStructureStorage st) ⊆ dom (feeStructureStorage st').
Proof.
  assert (Hpost : forall kind body,
            (post srv kind st env body).1 = st \/
            exists key e,
              (post srv kind st env body).1 =
              set_storage_of kind (fun m => <[key:=e]> m) st).
  { intros kind body.
    destruct (post srv kind st env body) as [st' out] eqn:Hk.
    destruct (post_inv _ _ _ _ _ _ _ Hk)
      as [(_ & _ & ->)|(e & _ & _ & -> & _)]; [by left|right; by eexists _, _]. }
  destruct req as [body|body|body|body|body|id body]; simpl.
  - destruct (Hpost an_owner body) as [Heq|(key & e & Heq)]; simpl in Heq;
      rewrite Heq; simpl; split_and!; try done; apply dom_insert_subseteq.
  - destruct (Hpost a_child body) as [Heq|(key & e & Heq)]; simpl in Heq;
      rewrite Heq; simpl; split_and!; try done; apply dom_insert_subseteq.
  - destruct (Hpost a_guardian body) as [Heq|(key & e & Heq)]; simpl in Heq;
      rewrite Heq; simpl; split_and!; try done; apply dom_insert_subseteq.
  - destruct (Hpost a_fee_structure body) as [Heq|(key & e & Heq)]; simpl in Heq;
      rewrite Heq; simpl; split_and!; try done; apply dom_insert_subseteq.
  - destruct (postPayments srv st env body) as [st' out] eqn:Hrun.
    destruct (postPayments_inv _ _ _ _ _ _ Hrun)
      as [(_ & _ & ->)|(ps & bs & _ & _ & -> & _)]; simpl; [done|].
    destruct (store_payments_frame ps st) as (-> & -> & -> & ->).
    split_and!; try done. apply store_payments_dom.
  - destruct (putChildren_inv srv st id body)
      as [(_ & -> & _)|(child & _ & ->)]; simpl; [done|].
    split_and!; try done. apply dom_insert_subseteq.
Qed.

(** X21: an update creates no child: the ids under which children are
    stored are the same after a [PUT /children/:id] as before. *)
Theorem update_creates_no_child (srv : Server) (st : State) (id : string)
    (body : Obj) :
  dom (childrenStorage (putChildren srv st id body).1) = dom (childrenStorage st).
Proof.
  destruct (putChildren_inv srv st id body)
    as [(_ & -> & _)|(child & Hchild & ->)]; [done|].
  simpl. unfold storage_insert. apply dom_insert_lookup_L.
  unfold storage_get in Hchild. by rewrite Hchild.
Qed.

(** X22: once the refactored server has an owner, no request changes the
    owners store again. *)
Theorem refactored_owner_stays (st : State) (env : Env) (req : Request) :
  ownerStorage st <> ∅ ->
  ownerStorage (handle refactored st env req).1 = ownerStorage st.
Proof.
  intros Hne.
  destruct (handle_frame refactored st env req)
    as (_ & _ & _ & [Heq|[body ->]] & _); [done|].
  simpl. destruct (refactored_postOwner_inv st env body)
    as [->|(Hempty & _)]; done.
Qed.

(** X23: in every state the refactored server can be in, there is at most
    one owner. *)
Theorem refactored_server_has_one_owner_at_most (st : State) :
  reachable refactored st -> (size (ownerStorage st) <= 1)%nat.
Proof. apply refactored_at_most_one_owner. Qed.

(** X24: in the server of [src/index.ts], a request that passes every check
    while no fee structure is registered throws, and writes nothing. *)
Theorem index_ts_throws_without_fee_structure (st : State) (env : Env)
    (body : Obj) (ids : list JsValue) :
  feeStructureStorage st = ∅ ->
  field body "childIds" = JArray ids ->
  truthy (field body "amount") = true ->
  truthy (field body "guardianId") = true ->
  is_Some (storage_get (field body "guardianId") (guardiansStorage st)) ->
  isNaN (parseFloat (field body "amount")) = false ->
  js_le (parseFloat (field body "amount")) (Fin 0) = false ->
  unresolved st ids = [] ->
  postPayments index_ts st env body =
  (st, Thrown "TypeError: Cannot read properties of undefined (reading 'amount')").
Proof. apply index_without_fee_structure. Qed.

(** X25: the refactored server answers 404 "Fee structure not found" to a
    request with its three fields and a guardian that exists while no fee
    structure is registered, before it looks at the amount or at the child
    ids, and writes nothing. *)
Theorem refactored_answers_404_without_fee_structure (st : State) (env : Env)
    (body : Obj) :
  feeStructureStorage st = ∅ ->
  truthy (field body "childIds") = true ->
  truthy (field body "amount") = true ->
  truthy (field body "guardianId") = true ->
  is_Some (storage_get (field body "guardianId") (guardiansStorage st)) ->
  postPayments refactored st env body =
  (st, Sent 404 (Message "Fee structure not found")).
Proof.
  intros Hempty Hc Ha Hg Hguard.
  destruct (postPayments refactored st env body) as [st' out] eqn:Hrun.
  destruct (refactored_without_fee_structure _ _ _ _ _ Hempty Hrun)
    as [-> Hout]. by rewrite Hout.
Qed.
End Never.

(** ** The requests of the scenarios, run *)

#[local] Existing Instance demo_runtime.

Lemma demo_state_reachable (srv : Server) : reachable srv (demo_state srv).
Proof. apply run_reachable. constructor. Qed.

Lemma demo_state_no_fee_reachable (srv : Server) :
  reachable srv (demo_state_no_fee srv).
Proof. apply run_reachable. constructor. Qed.

Lemma demo_state_refactored : demo_state refactored = refactored_store.
Proof. reflexivity. Qed.

(** C1: the i-th payment is claimed to be [applied_i], 100 and 50 in
    scenario A.  Both servers answer scenario A with the balances 0 and 50
    and with two payments of 0: the pass over the balances has spent the
    150 before the pass over the payments reads what is left. *)
Theorem scenario_A_pays_nothing :
  amounts (postPayments index_ts (demo_state index_ts) demo_env scenario_A).2 =
    Some ([Fin 0; Fin 0], [Fin 0; Fin 50]) /\
  amounts (postPayments refactored (demo_state refactored) demo_env scenario_A).2 =
    Some ([Fin 0; Fin 0], [Fin 0; Fin 50]) /\
  map (applied (Fin 100) (Fin 150)) [0; 1]%nat = [Fin 100; Fin 50].
Proof. split_and!; vm_compute; reflexivity. Qed.

(** C4: with no fee structure registered, the request of scenario A makes
    the server of [src/index.ts] throw a TypeError; the refactored server
    answers 404.  Neither writes anything. *)
Theorem missing_fee_structure_throws_in_index_ts :
  reachable index_ts (demo_state_no_fee index_ts) /\
  feeStructureStorage (demo_state_no_fee index_ts) = ∅ /\
  postPayments index_ts (demo_state_no_fee index_ts) demo_env scenario_A =
    (demo_state_no_fee index_ts,
     Thrown "TypeError: Cannot read properties of undefined (reading 'amount')") /\
  postPayments refactored (demo_state_no_fee refactored) demo_env scenario_A =
    (demo_state_no_fee refactored, Sent 404 (Message "Fee structure not found")).
Proof.
  split; [apply demo_state_no_fee_reachable|]. split_and!; reflexivity.
Qed.

(** C5: a store that holds an owner takes a second one from the server of
    [src/index.ts] when the email differs; the refactored server answers
    409 and keeps the store. *)
Theorem second_owner_is_accepted_by_index_ts :
  let r := postOwner index_ts (demo_state index_ts) demo_env second_owner in
  size (ownerStorage (demo_state index_ts)) = 1%nat /\
  r.2 = Sent 200 (InArray (Created (Some 200) "Owner created successfully"
                             (entity_of r.2))) /\
  reachable index_ts r.1 /\
  size (ownerStorage r.1) = 2%nat /\
  postOwner refactored (demo_state refactored) demo_env second_owner =
    (demo_state refactored, Sent 409 (Message "Owner already exists")).
Proof.
  split; [vm_compute; reflexivity|]. split; [reflexivity|].
  split; [|split; [vm_compute; reflexivity|reflexivity]].
  apply (reachable_step index_ts (demo_state index_ts) demo_env
           (PostOwner second_owner)), demo_state_reachable.
Qed.

(** C6 fails: a child is created for the guardian [g], and the list of
    child ids the store holds for [g] does not contain the child's id. *)
Lemma created_child_is_not_listed :
  Forall
    (fun srv =>
       let r := postChildren srv (demo_state srv) demo_env new_child in
       created r.2 = Some (entity_of r.2) /\
       field (entity_of r.2) "guardianId" = JString "g" /\
       storage_get (JString "g") (guardiansStorage r.1) = Some guardian_g /\
       field guardian_g "childrenIds" = JArray [] /\
       lists_child guardian_g (field (entity_of r.2) "id") = false)
    [index_ts; refactored].
Proof.
  repeat constructor; try reflexivity; vm_compute; reflexivity.
Qed.

(** In [src/index.ts] the body of the registration is spread over the
    default [childrenIds: []]: a guardian may hold a list of its own from
    the start.  A child creation leaves that list as it was, too. *)
Lemma supplied_childrenIds_are_kept :
  let r := postChildren index_ts state_naming_a_child demo_env child_of_h in
  created r.2 = Some (entity_of r.2) /\
  field (entity_of r.2) "guardianId" = JString "h" /\
  field (entity_of r.2) "id" = JString "0-uuid" /\
  childrenIds_of "h" state_naming_a_child = JArray [JString "c9"] /\
  childrenIds_of "h" r.1 = JArray [JString "c9"].
Proof.
  split_and!; vm_compute; reflexivity.
Qed.

(** C8 fails: a fee structure of -5 is accepted and stored. *)
Lemma negative_fee_is_stored :
  Forall
    (fun srv =>
       let r := postFeeStructure srv (demo_state srv) demo_env negative_fee in
       let fs := entity_of r.2 in
       reachable srv r.1 /\
       created r.2 = Some fs /\
       storage_get (field fs "id") (feeStructureStorage r.1) = Some fs /\
       field fs "amount" = JNumber (Fin (-5)) /\
       js_lt (Fin 0) (toNumber (field fs "amount")) = false)
    [index_ts; refactored].
Proof.
  assert (Hall : forall srv,
            reachable srv (postFeeStructure srv (demo_state srv) demo_env
                             negative_fee).1).
  { intros srv.
    apply (reachable_step srv (demo_state srv) demo_env
             (PostFeeStructure negative_fee)), demo_state_reachable. }
  repeat constructor; try apply Hall; try reflexivity; vm_compute; reflexivity.
Qed.

(** C10 fails: the amount ["0"] is truthy and parses to zero, which is
    neither [NaN] nor negative, and the answer is "Invalid amount". *)
Lemma text_zero_is_an_invalid_amount :
  Forall
    (fun srv =>
       postPayments srv (demo_state srv) demo_env request_zero_text =
         (demo_state srv, Sent 400 (Message "Invalid amount")))
    [index_ts; refactored] /\
  truthy (field request_zero_text "amount") = true /\
  parseFloat (field request_zero_text "amount") = Fin 0 /\
  isNaN (parseFloat (field request_zero_text "amount")) = false /\
  js_lt (parseFloat (field request_zero_text "amount")) (Fin 0) = false.
Proof.
  split; [repeat constructor; reflexivity|].
  split_and!; vm_compute; reflexivity.
Qed.

(** ** The theorems at the requests of the scenarios *)

Lemma balances_first_come_first_funded_witness :
  let r := postPayments refactored (demo_state refactored) demo_env scenario_D in
  let ids := [JString "c1"; JString "c2"; JString "c1"] in
  let bs := balances_of r.2 in
  allocated r.2 = Some (payments_of r.2, bs) /\
  field scenario_D "childIds" = JArray ids /\
  head (storage_values (feeStructureStorage (demo_state refactored))) = Some fee_100 /\
  js_num_eq (remaining (Fin 100) (Fin 150) 2) (Fin 0) = true /\
  length bs = length ids /\
  (forall i id, ids !! i = Some id ->
     exists child,
       storage_get id (childrenStorage (demo_state refactored)) = Some child /\
       bs !! i = Some {| bal_childId := field child "id";
                         balance := owed (Fin 100) (Fin 150) i |}) /\
  (forall i j b,
     js_num_eq (remaining (Fin 100) (Fin 150) i) (Fin 0) = true ->
     (i <= j)%nat -> bs !! j = Some b ->
     js_num_eq (balance b) (Fin 100) = true).
Proof.
  intros r ids bs.
  assert (Hrun : postPayments refactored (demo_state refactored) demo_env scenario_D = (r.1, r.2))
    by apply surjective_pairing.
  assert (Hout : allocated r.2 = Some (payments_of r.2, bs))
    by reflexivity.
  assert (Hids : field scenario_D "childIds" = JArray ids)
    by reflexivity.
  assert (Hfs : head (storage_values (feeStructureStorage (demo_state refactored))) = Some fee_100)
    by reflexivity.
  split; [exact Hout|]. split; [exact Hids|]. split; [exact Hfs|].
  split; [reflexivity|].
  exact (balances_first_come_first_funded refactored (demo_state refactored) r.1 demo_env
           scenario_D r.2 (payments_of r.2) bs ids fee_100 Hrun Hout Hids Hfs).
Defined.

Lemma payment_amounts_within_fee_witness :
  let r := postPayments refactored (demo_state refactored) demo_env scenario_A in
  allocated r.2 = Some (payments_of r.2, balances_of r.2) /\
  head (storage_values (feeStructureStorage (demo_state refactored))) = Some fee_100 /\
  toNumber (field fee_100 "amount") = Fin 100 /\
  (0 < 100)%Q /\
  length (payments_of r.2) = 2%nat /\
  forall p, p ∈ payments_of r.2 ->
    exists a, pay_amount p = Fin a /\ (0 <= a <= 100)%Q.
Proof.
  intros r.
  assert (Hrun : postPayments refactored (demo_state refactored) demo_env scenario_A = (r.1, r.2))
    by apply surjective_pairing.
  assert (Hout : allocated r.2 = Some (payments_of r.2, balances_of r.2))
    by reflexivity.
  assert (Hfs : head (storage_values (feeStructureStorage (demo_state refactored))) = Some fee_100)
    by reflexivity.
  assert (Hfee : toNumber (field fee_100 "amount") = Fin 100)
    by reflexivity.
  assert (Hf : (0 < 100)%Q) by reflexivity.
  split; [exact Hout|]. split; [exact Hfs|]. split; [exact Hfee|].
  split; [exact Hf|]. split; [vm_compute; reflexivity|].
  exact (payment_amounts_within_fee refactored (demo_state refactored) r.1 demo_env
           scenario_A r.2 (payments_of r.2) (balances_of r.2) fee_100 100%Q
           Hrun Hout Hfs Hfee Hf).
Defined.

Lemma invalid_child_ids_fail_atomically_witness :
  let r := postPayments refactored (demo_state refactored) demo_env scenario_C in
  let ids := [JString "c1"; JString "nobody"] in
  field scenario_C "childIds" = JArray ids /\
  JString "nobody" ∈ ids /\
  storage_get (JString "nobody") (childrenStorage (demo_state refactored)) = None /\
  r.1 = demo_state refactored /\
  paymentsStorage r.1 = paymentsStorage (demo_state refactored) /\
  allocated r.2 = None /\
  r.2 = Sent 404 (InvalidChildIds "Invalid child IDs" [JString "nobody"]).
Proof.
  intros r ids.
  assert (Hrun : postPayments refactored (demo_state refactored) demo_env scenario_C = (r.1, r.2))
    by apply surjective_pairing.
  assert (Hids : field scenario_C "childIds" = JArray ids)
    by reflexivity.
  assert (Hin : JString "nobody" ∈ ids)
    by apply list_elem_of_further, list_elem_of_here.
  assert (Hnone : storage_get (JString "nobody") (childrenStorage (demo_state refactored)) = None)
    by reflexivity.
  destruct (invalid_child_ids_fail_atomically refactored (demo_state refactored) r.1 demo_env
              scenario_C r.2 ids (JString "nobody") Hrun Hids Hin Hnone)
    as (Hst & Hpay & Hout & _ & Hanswer).
  split; [exact Hids|]. split; [exact Hin|]. split; [exact Hnone|].
  split; [exact Hst|]. split; [exact Hpay|]. split; [exact Hout|].
  apply Hanswer.
  - reflexivity.
  - reflexivity.
  - exists guardian_g. reflexivity.
  - intros _ Hnil. apply (f_equal length) in Hnil. vm_compute in Hnil.
    discriminate Hnil.
  - reflexivity.
  - reflexivity.
Defined.

Lemma child_creation_keeps_guardians_witness :
  let r := postChildren refactored (demo_state refactored) demo_env new_child in
  let child := entity_of r.2 in
  created r.2 = Some child /\
  guardiansStorage r.1 = guardiansStorage (demo_state refactored) /\
  (exists guardian,
     storage_get (field new_child "guardianId")
       (guardiansStorage (demo_state refactored)) = Some guardian /\
     storage_get (field new_child "guardianId") (guardiansStorage r.1)
       = Some guardian) /\
  (forall key guardian',
     storage_get key (guardiansStorage r.1) = Some guardian' ->
     exists guardian,
       storage_get key (guardiansStorage (demo_state refactored))
         = Some guardian /\
       field guardian' "childrenIds" = field guardian "childrenIds") /\
  field child "guardianId" = field new_child "guardianId" /\
  storage_get (field child "id") (childrenStorage r.1) = Some child.
Proof.
  intros r child.
  assert (Hrun : postChildren refactored (demo_state refactored) demo_env new_child = (r.1, r.2))
    by apply surjective_pairing.
  assert (Hout : created r.2 = Some child) by reflexivity.
  split; [exact Hout|].
  exact (child_creation_keeps_guardians refactored (demo_state refactored) r.1 demo_env
           new_child r.2 child Hrun Hout).
Defined.

Lemma stored_fee_amount_is_truthy_witness :
  let r := postFeeStructure index_ts (demo_state index_ts) demo_env negative_fee in
  let fs := entity_of r.2 in
  created r.2 = Some fs /\
  feeStructureStorage r.1 =
    storage_insert (field fs "id") fs (feeStructureStorage (demo_state index_ts)) /\
  field fs "amount" = field negative_fee "amount" /\
  truthy (field fs "amount") = true /\
  (forall n, field fs "amount" = JNumber n ->
     isNaN n = false /\ js_num_eq n (Fin 0) = false).
Proof.
  intros r fs.
  assert (Hrun : postFeeStructure index_ts (demo_state index_ts) demo_env negative_fee
                 = (r.1, r.2)) by apply surjective_pairing.
  assert (Hout : created r.2 = Some fs) by reflexivity.
  split; [exact Hout|].
  exact (stored_fee_amount_is_truthy index_ts (demo_state index_ts) r.1 demo_env
           negative_fee r.2 fs Hrun Hout).
Defined.

Lemma put_child_overwrites_supplied_fields_witness :
  let r := putChildren refactored (demo_state refactored) "c1" rename_child in
  storage_get (JString "c1") (childrenStorage (demo_state refactored)) = Some child_c1 /\
  exists updated,
    storage_get (JString "c1") (childrenStorage r.1) = Some updated /\
    r.2 = Sent 200 (Entity updated) /\
    (forall k v, rename_child !! k = Some v -> updated !! k = Some v) /\
    (forall k, rename_child !! k = None -> updated !! k = child_c1 !! k) /\
    (forall other, other <> "c1" ->
       storage_get (JString other) (childrenStorage r.1) =
       storage_get (JString other) (childrenStorage (demo_state refactored))) /\
    guardiansStorage r.1 = guardiansStorage (demo_state refactored) /\
    paymentsStorage r.1 = paymentsStorage (demo_state refactored) /\
    ownerStorage r.1 = ownerStorage (demo_state refactored) /\
    feeStructureStorage r.1 = feeStructureStorage (demo_state refactored).
Proof.
  intros r.
  assert (Hchild : storage_get (JString "c1") (childrenStorage (demo_state refactored))
                   = Some child_c1) by reflexivity.
  assert (Hrun : putChildren refactored (demo_state refactored) "c1" rename_child = (r.1, r.2))
    by apply surjective_pairing.
  split; [exact Hchild|].
  exact (put_child_overwrites_supplied_fields refactored (demo_state refactored) r.1 "c1"
           rename_child r.2 child_c1 Hchild Hrun).
Defined.

Lemma falsy_amount_is_a_missing_field_witness :
  let r := postPayments index_ts (demo_state index_ts) demo_env request_zero in
  truthy (field request_zero "amount") = false /\
  r.1 = demo_state index_ts /\
  r.2 = Sent 400 (Message "Missing required fields").
Proof.
  intros r.
  assert (Hrun : postPayments index_ts (demo_state index_ts) demo_env request_zero = (r.1, r.2))
    by apply surjective_pairing.
  assert (Hfalsy : truthy (field request_zero "amount") = false)
    by reflexivity.
  split; [exact Hfalsy|].
  exact (proj1 (falsy_amount_is_a_missing_field index_ts (demo_state index_ts) r.1 demo_env
                  request_zero r.2 Hrun) Hfalsy).
Defined.

(** ** The further properties at the requests of the scenarios *)

Lemma after_scenario_A_reachable : reachable refactored after_scenario_A.
Proof.
  unfold after_scenario_A. constructor. apply demo_state_reachable.
Qed.

Lemma errors_write_nothing_witness :
  let r := handle refactored (demo_state refactored) demo_env
             (PostPayments scenario_C) in
  is_error r.2 = true /\ r.1 = demo_state refactored.
Proof.
  intros r.
  assert (Hrun : handle refactored (demo_state refactored) demo_env
                   (PostPayments scenario_C) = (r.1, r.2))
    by apply surjective_pairing.
  assert (Herr : is_error r.2 = true) by reflexivity.
  split; [exact Herr|].
  exact (errors_write_nothing refactored (demo_state refactored) r.1 demo_env
           (PostPayments scenario_C) r.2 Hrun Herr).
Defined.

Lemma entities_are_filed_under_their_id_witness :
  reachable refactored (demo_state refactored) /\
  a_guardian <> a_child /\
  storage_of a_guardian (demo_state refactored) !! "g" = Some guardian_g /\
  "g" = key_bytes (field guardian_g "id").
Proof.
  assert (Hkind : a_guardian <> a_child) by discriminate.
  assert (Hkey : storage_of a_guardian (demo_state refactored) !! "g"
                 = Some guardian_g) by reflexivity.
  split; [apply demo_state_reachable|]. split; [exact Hkind|].
  split; [exact Hkey|].
  exact (entities_are_filed_under_their_id refactored a_guardian
           (demo_state refactored) "g" guardian_g
           (demo_state_reachable refactored) Hkind Hkey).
Defined.

Lemma contacts_are_validated_witness :
  reachable refactored (demo_state refactored) /\
  storage_of a_guardian (demo_state refactored) !! "g" = Some guardian_g /\
  truthy (field guardian_g "name") = true /\
  phonePattern (ToString (field guardian_g "phoneNumber")) = true /\
  emailPattern (ToString (field guardian_g "email")) = true.
Proof.
  assert (Hkey : storage_of a_guardian (demo_state refactored) !! "g"
                 = Some guardian_g) by reflexivity.
  split; [apply demo_state_reachable|]. split; [exact Hkey|].
  exact (contacts_are_validated refactored a_guardian (demo_state refactored)
           "g" guardian_g (demo_state_reachable refactored)
           (or_intror eq_refl) Hkey).
Defined.

Lemma two_guardians_reachable : reachable refactored two_guardians.
Proof.
  unfold two_guardians. constructor. apply demo_state_reachable.
Qed.

Lemma guardian_emails_are_unique_witness :
  guardiansStorage two_guardians !! "g" = Some guardian_g /\
  field guardian_g "email" = JString "gil@home.org" /\
  forall k g,
    guardiansStorage two_guardians !! k = Some g ->
    field g "email" = JString "gil@home.org" -> k = "g".
Proof.
  assert (Hg : guardiansStorage two_guardians !! "g" = Some guardian_g)
    by reflexivity.
  assert (He : field guardian_g "email" = JString "gil@home.org")
    by reflexivity.
  split; [exact Hg|]. split; [exact He|].
  intros k g Hk Hemail.
  exact (guardian_emails_are_unique refactored two_guardians k "g" g guardian_g
           "gil@home.org" two_guardians_reachable Hk Hg Hemail He).
Defined.

Lemma refactored_guardians_list_no_child_witness :
  reachable refactored after_scenario_A /\
  guardiansStorage after_scenario_A !! "g" = Some guardian_g /\
  field guardian_g "childrenIds" = JArray [].
Proof.
  assert (Hkey : guardiansStorage after_scenario_A !! "g" = Some guardian_g)
    by reflexivity.
  split; [apply after_scenario_A_reachable|]. split; [exact Hkey|].
  exact (refactored_guardians_list_no_child after_scenario_A "g" guardian_g
           after_scenario_A_reachable Hkey).
Defined.

Lemma payments_are_paid_witness :
  reachable refactored after_scenario_A /\
  paymentsStorage after_scenario_A !! "0-uuid" = Some payment_0 /\
  "0-uuid" = key_bytes (JString (pay_id payment_0)) /\
  pay_status payment_0 = PAID.
Proof.
  assert (Hkey : paymentsStorage after_scenario_A !! "0-uuid" = Some payment_0)
    by reflexivity.
  split; [apply after_scenario_A_reachable|]. split; [exact Hkey|].
  exact (payments_are_paid refactored after_scenario_A "0-uuid" payment_0
           after_scenario_A_reachable Hkey).
Defined.

Lemma allocated_payments_are_stored_witness :
  let r := postPayments refactored (demo_state refactored) demo_env scenario_A in
  let ps := payments_of r.2 in
  allocated r.2 = Some (ps, balances_of r.2) /\
  NoDup (map (uuidv4 demo_env) (seq 0 (length ps))) /\
  payment_0 ∈ ps /\
  storage_get (JString (pay_id payment_0)) (paymentsStorage r.1) = Some payment_0 /\
  In payment_0 (getPayments refactored r.1).
Proof.
  intros r ps.
  assert (Hrun : postPayments refactored (demo_state refactored) demo_env
                   scenario_A = (r.1, r.2)) by apply surjective_pairing.
  assert (Hout : allocated r.2 = Some (ps, balances_of r.2)) by reflexivity.
  assert (Hdup : NoDup (map (uuidv4 demo_env) (seq 0 (length ps)))).
  { apply (bool_decide_unpack _). vm_compute. reflexivity. }
  assert (Hin : payment_0 ∈ ps) by apply list_elem_of_here.
  split; [exact Hout|]. split; [exact Hdup|]. split; [exact Hin|].
  exact (proj1 (allocated_payments_are_stored refactored (demo_state refactored)
                  r.1 demo_env scenario_A r.2 ps (balances_of r.2)
                  Hrun Hout Hdup) payment_0 Hin).
Defined.

Lemma created_entity_is_served_witness :
  let r := post refactored a_child (demo_state refactored) (registering "c3")
             new_child in
  let child := entity_of r.2 in
  created r.2 = Some child /\
  field child "id" = JString "c3" /\
  getById refactored a_child r.1 "c3" = Sent 200 (Entity child) /\
  In child (getChildren refactored r.1).
Proof.
  intros r child.
  assert (Hrun : post refactored a_child (demo_state refactored)
                   (registering "c3") new_child = (r.1, r.2))
    by apply surjective_pairing.
  assert (Hout : created r.2 = Some child) by reflexivity.
  destruct (created_entity_is_served refactored a_child (demo_state refactored)
              r.1 (registering "c3") new_child r.2 child Hrun Hout)
    as (Hid & Hget & Hlist & _).
  split; [exact Hout|]. split; [exact (Hid eq_refl)|].
  split; [exact (Hget "c3" (Hid eq_refl))|exact (Hlist eq_refl)].
Defined.

Lemma index_ts_takes_the_id_of_the_body_witness :
  let r := post index_ts a_child (demo_state index_ts) (registering "c3")
             child_with_id in
  let child := entity_of r.2 in
  created r.2 = Some child /\
  child_with_id !! "id" = Some (JString "c1") /\
  field child "id" = JString "c1" /\
  storage_of a_child r.1 =
    <[key_bytes (JString "c1") := child]> (storage_of a_child (demo_state index_ts)) /\
  (forall k v, child_with_id !! k = Some v -> child !! k = Some v).
Proof.
  intros r child.
  assert (Hrun : post index_ts a_child (demo_state index_ts) (registering "c3")
                   child_with_id = (r.1, r.2)) by apply surjective_pairing.
  assert (Hout : created r.2 = Some child) by reflexivity.
  assert (Hid : child_with_id !! "id" = Some (JString "c1")) by reflexivity.
  split; [exact Hout|]. split; [exact Hid|].
  exact (index_ts_takes_the_id_of_the_body a_child (demo_state index_ts) r.1
           (registering "c3") child_with_id r.2 child (JString "c1")
           Hrun Hout Hid).
Defined.

Lemma empty_update_changes_nothing_witness :
  storage_get (JString "c1") (childrenStorage (demo_state refactored))
    = Some child_c1 /\
  putChildren refactored (demo_state refactored) "c1" ∅ =
    (demo_state refactored, Sent 200 (Entity child_c1)).
Proof.
  assert (Hchild : storage_get (JString "c1")
                     (childrenStorage (demo_state refactored)) = Some child_c1)
    by reflexivity.
  split; [exact Hchild|].
  exact (empty_update_changes_nothing refactored (demo_state refactored) "c1"
           child_c1 Hchild).
Defined.

Lemma allocation_ignores_the_guardian_witness :
  truthy (JString "g") = true /\ truthy (JString "h") = true /\
  is_Some (storage_get (JString "g") (guardiansStorage two_guardians)) /\
  is_Some (storage_get (JString "h") (guardiansStorage two_guardians)) /\
  postPayments refactored two_guardians demo_env
    (<["guardianId":=JString "g"]> scenario_A) =
  postPayments refactored two_guardians demo_env
    (<["guardianId":=JString "h"]> scenario_A).
Proof.
  assert (Hg : is_Some (storage_get (JString "g") (guardiansStorage two_guardians)))
    by (exists guardian_g; reflexivity).
  assert (Hh : is_Some (storage_get (JString "h") (guardiansStorage two_guardians)))
    by (exists guardian_h; reflexivity).
  split; [reflexivity|]. split; [reflexivity|]. split; [exact Hg|].
  split; [exact Hh|].
  exact (allocation_ignores_the_guardian refactored two_guardians demo_env
           scenario_A (JString "g") (JString "h") eq_refl eq_refl Hg Hh).
Defined.

Lemma childIds_that_are_no_array_throw_witness :
  truthy (field request_text_ids "childIds") = true /\
  (forall ids, field request_text_ids "childIds" <> JArray ids) /\
  exists error,
    postPayments refactored (demo_state refactored) demo_env request_text_ids
    = (demo_state refactored, Thrown error).
Proof.
  assert (Hno : forall ids, field request_text_ids "childIds" <> JArray ids).
  { intros ids E. change (JString "c1" = JArray ids) in E. discriminate E. }
  assert (Hguard : is_Some (storage_get (field request_text_ids "guardianId")
                              (guardiansStorage (demo_state refactored))))
    by (exists guardian_g; reflexivity).
  assert (Hfee : refactored = refactored ->
                 storage_values (feeStructureStorage (demo_state refactored)) <> []).
  { intros _ Hnil. apply (f_equal length) in Hnil. vm_compute in Hnil.
    discriminate Hnil. }
  split; [reflexivity|]. split; [exact Hno|].
  exact (childIds_that_are_no_array_throw refactored (demo_state refactored)
           demo_env request_text_ids eq_refl Hno eq_refl eq_refl Hguard Hfee
           eq_refl eq_refl).
Defined.


Lemma payments_are_shares_of_the_leftover_witness :
  let r := postPayments refactored (demo_state refactored) demo_env scenario_A in
  let ids := [JString "c1"; JString "c2"] in
  let ps := payments_of r.2 in
  allocated r.2 = Some (ps, balances_of r.2) /\
  field scenario_A "childIds" = JArray ids /\
  head (storage_values (feeStructureStorage (demo_state refactored)))
    = Some fee_100 /\
  length ps = length ids /\
  forall i p, ps !! i = Some p ->
    pay_amount p = applied (Fin 100) (Fin 150) (length ids + i) /\
    pay_status p = PAID /\ pay_id p = uuidv4 demo_env i.
Proof.
  intros r ids ps.
  assert (Hrun : postPayments refactored (demo_state refactored) demo_env
                   scenario_A = (r.1, r.2)) by apply surjective_pairing.
  assert (Hout : allocated r.2 = Some (ps, balances_of r.2)) by reflexivity.
  assert (Hids : field scenario_A "childIds" = JArray ids) by reflexivity.
  assert (Hfs : head (storage_values (feeStructureStorage (demo_state refactored)))
                = Some fee_100) by reflexivity.
  split; [exact Hout|]. split; [exact Hids|]. split; [exact Hfs|].
  exact (payments_are_shares_of_the_leftover refactored (demo_state refactored)
           r.1 demo_env scenario_A r.2 ps (balances_of r.2) ids fee_100
           Hrun Hout Hids Hfs).
Defined.

Lemma balances_are_settled_when_funded_witness :
  let r := postPayments refactored (demo_state refactored) demo_env scenario_B in
  let bs := balances_of r.2 in
  allocated r.2 = Some (payments_of r.2, bs) /\
  (0 < 100)%Q /\ safe_integer (Fin 100) = true /\
  safe_integer (Fin 250) = true /\ (times 2 100 <= 250)%Q /\
  length bs = 2%nat /\
  forall b, b ∈ bs -> js_num_eq (balance b) (Fin 0) = true.
Proof.
  intros r bs.
  assert (Hrun : postPayments refactored (demo_state refactored) demo_env
                   scenario_B = (r.1, r.2)) by apply surjective_pairing.
  assert (Hout : allocated r.2 = Some (payments_of r.2, bs)) by reflexivity.
  assert (Hf : (0 < 100)%Q) by reflexivity.
  assert (Hfunded : (times 2 100 <= 250)%Q) by (vm_compute; discriminate).
  split; [exact Hout|]. split; [exact Hf|]. split; [reflexivity|].
  split; [reflexivity|]. split; [exact Hfunded|].
  split; [reflexivity|].
  exact (balances_are_settled_when_funded refactored (demo_state refactored)
           r.1 demo_env scenario_B r.2 (payments_of r.2) bs
           [JString "c1"; JString "c2"] fee_100 100%Q 250%Q
           Hrun Hout eq_refl eq_refl eq_refl Hf eq_refl eq_refl eq_refl
           Hfunded).
Defined.

Lemma payments_record_the_surplus_witness :
  let r := postPayments refactored (demo_state refactored) demo_env scenario_A in
  let ps := payments_of r.2 in
  allocated r.2 = Some (ps, balances_of r.2) /\
  (0 < 100)%Q /\ safe_integer (Fin 100) = true /\
  safe_integer (Fin 150) = true /\ (150 <= times 2 100)%Q /\
  length ps = 2%nat /\
  forall p, p ∈ ps -> js_num_eq (pay_amount p) (Fin 0) = true.
Proof.
  intros r ps.
  assert (Hrun : postPayments refactored (demo_state refactored) demo_env
                   scenario_A = (r.1, r.2)) by apply surjective_pairing.
  assert (Hout : allocated r.2 = Some (ps, balances_of r.2)) by reflexivity.
  assert (Hf : (0 < 100)%Q) by reflexivity.
  assert (Hshort : (150 <= times 2 100)%Q) by (vm_compute; discriminate).
  split; [exact Hout|]. split; [exact Hf|]. split; [reflexivity|].
  split; [reflexivity|]. split; [exact Hshort|].
  split; [reflexivity|].
  exact (proj1 (payments_record_the_surplus refactored (demo_state refactored)
                  r.1 demo_env scenario_A r.2 ps (balances_of r.2)
                  [JString "c1"; JString "c2"] fee_100 100%Q 150%Q
                  Hrun Hout eq_refl eq_refl eq_refl Hf eq_refl eq_refl
                  eq_refl) Hshort).
Defined.

Lemma emailPattern_reads_as_the_regex_witness :
  ascii_only "otto@daycare.org" = true /\
  emailPattern "otto@daycare.org" = true /\
  exists l a b,
    "otto@daycare.org" = (l ++ "@" ++ a ++ "." ++ b)%string /\
    l <> ""%string /\ a <> ""%string /\ b <> ""%string /\
    all_plain l = true /\ all_plain a = true /\ all_plain b = true.
Proof.
  split; [reflexivity|]. split; [reflexivity|].
  exact (proj1 (emailPattern_reads_as_the_regex "otto@daycare.org" eq_refl)
           eq_refl).
Defined.

Lemma refactored_owner_stays_witness :
  ownerStorage (demo_state refactored) <> ∅ /\
  ownerStorage (handle refactored (demo_state refactored) demo_env
                  (PostOwner second_owner)).1
  = ownerStorage (demo_state refactored).
Proof.
  assert (Hne : ownerStorage (demo_state refactored) <> ∅).
  { intros E. apply (f_equal size) in E. vm_compute in E. discriminate E. }
  split; [exact Hne|].
  exact (refactored_owner_stays (demo_state refactored) demo_env
           (PostOwner second_owner) Hne).
Defined.

Lemma refactored_server_has_one_owner_at_most_witness :
  reachable refactored (demo_state refactored) /\
  (size (ownerStorage (demo_state refactored)) <= 1)%nat.
Proof.
  split; [apply demo_state_reachable|].
  exact (refactored_server_has_one_owner_at_most (demo_state refactored)
           (demo_state_reachable refactored)).
Defined.

Lemma index_ts_throws_without_fee_structure_witness :
  feeStructureStorage (demo_state_no_fee index_ts) = ∅ /\
  unresolved (demo_state_no_fee index_ts) [JString "c1"; JString "c2"] = [] /\
  postPayments index_ts (demo_state_no_fee index_ts) demo_env scenario_A =
  (demo_state_no_fee index_ts,
   Thrown "TypeError: Cannot read properties of undefined (reading 'amount')").
Proof.
  assert (Hguard : is_Some (storage_get (field scenario_A "guardianId")
                              (guardiansStorage (demo_state_no_fee index_ts))))
    by (exists guardian_g; reflexivity).
  split; [reflexivity|]. split; [reflexivity|].
  exact (index_ts_throws_without_fee_structure (demo_state_no_fee index_ts)
           demo_env scenario_A [JString "c1"; JString "c2"]
           eq_refl eq_refl eq_refl eq_refl Hguard eq_refl eq_refl eq_refl).
Defined.

Lemma refactored_answers_404_without_fee_structure_witness :
  feeStructureStorage (demo_state_no_fee refactored) = ∅ /\
  postPayments refactored (demo_state_no_fee refactored) demo_env scenario_A =
  (demo_state_no_fee refactored, Sent 404 (Message "Fee structure not found")).
Proof.
  assert (Hguard : is_Some (storage_get (field scenario_A "guardianId")
                              (guardiansStorage (demo_state_no_fee refactored))))
    by (exists guardian_g; reflexivity).
  split; [reflexivity|].
  exact (refactored_answers_404_without_fee_structure
           (demo_state_no_fee refactored) demo_env scenario_A
           eq_refl eq_refl eq_refl eq_refl Hguard).
Defined.
